(** * TrafficDePINReFiFHE: confidential batch aggregation and decryption callback

    A shallow embedding of the Solidity contract [TrafficDePINReFiFHE]
    (access control, rate limiting, batch ledger, decryption coordinator)
    together with the properties its specification states about it.

    Conventions of the embedding:
    - [uint256], [address], [bytes32] and the ciphertext handles are integers
      ([Z]); arithmetic is Solidity 0.8 checked arithmetic, which reverts
      with [Panic 0x11] when a result leaves the [uint256] range;
    - a Solidity [mapping] is a finite map read with the zero default;
    - an external function is a computation [M A] over the contract storage
      which either reverts with an [Error] (the storage is then left as it
      was) or returns with the new storage and the effects it produced, in
      order: the events it emitted and the requests it sent to the oracle;
    - a modifier is a function from the guarded computation to the guarded
      and wrapped computation, applied in the order of the source;
    - the FHE library ([FHE.add], [FHE.isInitialized], [FHE.checkSignatures],
      [keccak256(abi.encode(..))]) is outside the contract: these functions
      are parameters of the development. *)

From Stdlib Require Import ZArith List Bool Lia.
From stdpp Require Import base gmap strings list.

Open Scope Z_scope.

(** ** Values *)

Abbreviation address := Z (only parsing).
Abbreviation uint256 := Z (only parsing).
Abbreviation bytes32 := Z (only parsing).
Abbreviation bytes := (list Byte.byte) (only parsing).

Definition MAX_UINT256 : Z := 2 ^ 256 - 1.

Arguments MAX_UINT256 : simpl never.

(** ** Storage layout *)

Module Batch.
Record t : Type := mk {
  id : uint256;
  isOpen : bool;
  totalEncryptedCongestionScore : uint256;
  totalEncryptedEcoScore : uint256;
  submissionCount : uint256
}.
End Batch.

Record DecryptionContext : Type := mkContext {
  batchId : uint256;
  stateHash : bytes32;
  processed : bool
}.

Record Storage : Type := mkStorage {
  owner : address;
  isProvider : gmap Z bool;
  paused : bool;
  cooldownSeconds : uint256;
  lastSubmissionTime : gmap Z Z;
  lastDecryptionRequestTime : gmap Z Z;
  currentBatch : Batch.t;
  decryptionContexts : gmap Z DecryptionContext
}.

(** Reading a mapping: an absent key reads as the zero value of the type. *)

Definition zeroContext : DecryptionContext :=
  {| batchId := 0; stateHash := 0; processed := false |}.

Definition readFlag (m : gmap Z bool) (k : Z) : bool := default false (m !! k).
Definition readUint (m : gmap Z Z) (k : Z) : Z := default 0 (m !! k).
Definition readContext (m : gmap Z DecryptionContext) (k : Z) : DecryptionContext :=
  default zeroContext (m !! k).

(** ** Events, errors and effects *)

Inductive Event : Type :=
| OwnershipTransferred (previousOwner newOwner : address)
| ProviderAdded (provider : address)
| ProviderRemoved (provider : address)
| ContractPaused (account : address)
| ContractUnpaused (account : address)
| CooldownSecondsUpdated (oldCooldown newCooldown : uint256)
| BatchOpened (batch : uint256)
| BatchClosed (batch : uint256)
| DataSubmitted (provider : address) (batch : uint256)
| DecryptionRequested (requestId batch : uint256)
| DecryptionCompleted (requestId batch totalCongestionScore totalEcoScore : uint256).

(** The nine custom errors the contract declares, and the three untyped ways
    a call can fail: [revert("..")] / [require(.., "..")] with a reason
    string, a compiler-inserted panic, and a revert without data (a failed
    [abi.decode]). *)

Inductive Error : Type :=
| NotOwner
| NotProvider
| Paused
| CooldownActive
| BatchNotOpen
| InvalidBatchId
| ReplayAttempt
| StateMismatch
| InvalidProof
| ErrorString (reason : string)
| Panic (code : Z)
| RevertEmpty.

Inductive Effect : Type :=
| Emit (e : Event)
| OracleRequest (cts : list bytes32).

Inductive Result (T : Type) : Type :=
| Ok (t : T)
| Err (e : Error).

Arguments Ok {T} t.
Arguments Err {T} e.

(** ** The monad of contract calls *)

Definition M (A : Type) : Type := Storage -> Result (A * Storage * list Effect).

Definition ret {A} (a : A) : M A := fun s => Ok (a, s, []).

Definition bind {A B} (c : M A) (k : A -> M B) : M B :=
  fun s =>
    match c s with
    | Err e => Err e
    | Ok (a, s1, out1) =>
        match k a s1 with
        | Err e => Err e
        | Ok (b, s2, out2) => Ok (b, s2, out1 ++ out2)
        end
    end.

Notation "'let!' x ':=' c 'in' k" := (bind c (fun x => k))
  (at level 10, x name, c at level 100, k at level 200).

Definition revert {A} (e : Error) : M A := fun _ => Err e.
Definition get : M Storage := fun s => Ok (s, s, []).
Definition modify (f : Storage -> Storage) : M unit := fun s => Ok (tt, f s, []).
Definition emit (e : Event) : M unit := fun s => Ok (tt, s, [Emit e]).
Definition oracle (cts : list bytes32) : M unit := fun s => Ok (tt, s, [OracleRequest cts]).

(** [if (c) revert E();] *)
Definition revertIf (c : bool) (e : Error) : M unit :=
  if c then revert e else ret tt.

(** Checked [uint256] addition. *)
Definition checkedAdd (a b : uint256) : M uint256 :=
  if a + b <=? MAX_UINT256 then ret (a + b) else revert (Panic 17).

(** ** Field updates *)

Definition set_owner (v : address) (s : Storage) : Storage :=
  mkStorage v (isProvider s) (paused s) (cooldownSeconds s) (lastSubmissionTime s)
    (lastDecryptionRequestTime s) (currentBatch s) (decryptionContexts s).

Definition set_isProvider (k : address) (v : bool) (s : Storage) : Storage :=
  mkStorage (owner s) (<[k := v]> (isProvider s)) (paused s) (cooldownSeconds s)
    (lastSubmissionTime s) (lastDecryptionRequestTime s) (currentBatch s)
    (decryptionContexts s).

Definition set_paused (v : bool) (s : Storage) : Storage :=
  mkStorage (owner s) (isProvider s) v (cooldownSeconds s) (lastSubmissionTime s)
    (lastDecryptionRequestTime s) (currentBatch s) (decryptionContexts s).

Definition set_cooldownSeconds (v : uint256) (s : Storage) : Storage :=
  mkStorage (owner s) (isProvider s) (paused s) v (lastSubmissionTime s)
    (lastDecryptionRequestTime s) (currentBatch s) (decryptionContexts s).

Definition set_lastSubmissionTime (k : address) (v : uint256) (s : Storage) : Storage :=
  mkStorage (owner s) (isProvider s) (paused s) (cooldownSeconds s)
    (<[k := v]> (lastSubmissionTime s)) (lastDecryptionRequestTime s)
    (currentBatch s) (decryptionContexts s).

Definition set_lastDecryptionRequestTime (k : address) (v : uint256) (s : Storage)
  : Storage :=
  mkStorage (owner s) (isProvider s) (paused s) (cooldownSeconds s)
    (lastSubmissionTime s) (<[k := v]> (lastDecryptionRequestTime s))
    (currentBatch s) (decryptionContexts s).

Definition set_currentBatch (v : Batch.t) (s : Storage) : Storage :=
  mkStorage (owner s) (isProvider s) (paused s) (cooldownSeconds s)
    (lastSubmissionTime s) (lastDecryptionRequestTime s) v (decryptionContexts s).

Definition set_decryptionContext (k : uint256) (v : DecryptionContext) (s : Storage)
  : Storage :=
  mkStorage (owner s) (isProvider s) (paused s) (cooldownSeconds s)
    (lastSubmissionTime s) (lastDecryptionRequestTime s) (currentBatch s)
    (<[k := v]> (decryptionContexts s)).

Definition batch_set_isOpen (v : bool) (b : Batch.t) : Batch.t :=
  Batch.mk (Batch.id b) v (Batch.totalEncryptedCongestionScore b)
    (Batch.totalEncryptedEcoScore b) (Batch.submissionCount b).

Definition batch_set_congestion (v : uint256) (b : Batch.t) : Batch.t :=
  Batch.mk (Batch.id b) (Batch.isOpen b) v (Batch.totalEncryptedEcoScore b)
    (Batch.submissionCount b).

Definition batch_set_eco (v : uint256) (b : Batch.t) : Batch.t :=
  Batch.mk (Batch.id b) (Batch.isOpen b) (Batch.totalEncryptedCongestionScore b) v
    (Batch.submissionCount b).

Definition batch_set_submissionCount (v : uint256) (b : Batch.t) : Batch.t :=
  Batch.mk (Batch.id b) (Batch.isOpen b) (Batch.totalEncryptedCongestionScore b)
    (Batch.totalEncryptedEcoScore b) v.

Definition updBatch (f : Batch.t -> Batch.t) (s : Storage) : Storage :=
  set_currentBatch (f (currentBatch s)) s.

(** ** ABI decoding of the cleartexts

    [abi.decode(cleartexts, (uint32, uint32))]: two 32-byte big-endian words,
    each of which must be a [uint32]; the decoder reverts on data shorter
    than 64 bytes and on a word with bits above the 32nd. *)

Definition beWord (bs : bytes) : Z :=
  fold_left (fun acc b => acc * 256 + Z.of_N (Byte.to_N b)) bs 0.

Definition abiDecodeUint32Pair (data : bytes) : option (Z * Z) :=
  if (length data <? 64)%nat then None
  else
    let w0 := beWord (firstn 32 data) in
    let w1 := beWord (firstn 32 (skipn 32 data)) in
    if (w0 <? 2 ^ 32) && (w1 <? 2 ^ 32) then Some (w0, w1) else None.

(** ** The contract *)

Section Contract.

(** [address(this)], the identity of this contract instance. *)
Variable this : address.

(** [keccak256(abi.encode(cts, addr))]. *)
Variable keccak256 : list bytes32 -> address -> bytes32.

(** [FHE.add], [FHE.isInitialized] on ciphertext handles. *)
Variable FHE_add : uint256 -> uint256 -> uint256.
Variable FHE_isInitialized : uint256 -> bool.

(** [FHE.checkSignatures(requestId, cleartexts, proof)]: [true] when the
    library call returns, [false] when it reverts. *)
Variable FHE_checkSignatures : uint256 -> bytes -> bytes -> bool.

(** *** Modifiers *)

Definition onlyOwner {A} (sender : address) (body : M A) : M A :=
  let! s := get in
  let! _ := revertIf (negb (sender =? owner s)) NotOwner in
  body.

Definition onlyProvider {A} (sender : address) (now : uint256) (body : M A) : M A :=
  let! s := get in
  let! _ := revertIf (negb (readFlag (isProvider s) sender)) NotProvider in
  let! r := body in
  let! _ := modify (set_lastSubmissionTime sender now) in
  ret r.

Definition whenNotPaused {A} (body : M A) : M A :=
  let! s := get in
  let! _ := revertIf (paused s) Paused in
  body.

Definition submissionRateLimited {A} (sender : address) (now : uint256)
    (body : M A) : M A :=
  let! s := get in
  let! ready := checkedAdd (readUint (lastSubmissionTime s) sender) (cooldownSeconds s) in
  let! _ := revertIf (now <? ready) CooldownActive in
  body.

Definition decryptionRateLimited {A} (sender : address) (now : uint256)
    (body : M A) : M A :=
  let! s := get in
  let! ready := checkedAdd (readUint (lastDecryptionRequestTime s) sender)
                  (cooldownSeconds s) in
  let! _ := revertIf (now <? ready) CooldownActive in
  let! r := body in
  let! _ := modify (set_lastDecryptionRequestTime sender now) in
  ret r.

(** *** Constructor *)

Definition constructor (sender : address) : Storage :=
  {| owner := sender;
     isProvider := ∅;
     paused := false;
     cooldownSeconds := 60;
     lastSubmissionTime := ∅;
     lastDecryptionRequestTime := ∅;
     currentBatch := Batch.mk 1 false 0 0 0;
     decryptionContexts := ∅ |}.

(** *** Access control *)

Definition transferOwnership (sender newOwner : address) : M unit :=
  onlyOwner sender (
    let! s := get in
    let! _ := emit (OwnershipTransferred (owner s) newOwner) in
    modify (set_owner newOwner)).

Definition addProvider (sender provider : address) : M unit :=
  onlyOwner sender (
    let! s := get in
    if negb (readFlag (isProvider s) provider) then
      let! _ := modify (set_isProvider provider true) in
      emit (ProviderAdded provider)
    else ret tt).

Definition removeProvider (sender provider : address) : M unit :=
  onlyOwner sender (
    let! s := get in
    if readFlag (isProvider s) provider then
      let! _ := modify (set_isProvider provider false) in
      emit (ProviderRemoved provider)
    else ret tt).

Definition pause (sender : address) : M unit :=
  onlyOwner sender (whenNotPaused (
    let! _ := modify (set_paused true) in
    emit (ContractPaused sender))).

Definition unpause (sender : address) : M unit :=
  onlyOwner sender (
    let! _ := modify (set_paused false) in
    emit (ContractUnpaused sender)).

Definition setCooldownSeconds (sender : address) (newCooldownSeconds : uint256)
  : M unit :=
  onlyOwner sender (
    let! _ := revertIf (negb (newCooldownSeconds >? 0))
                (ErrorString "Cooldown must be positive") in
    let! s := get in
    let! _ := emit (CooldownSecondsUpdated (cooldownSeconds s) newCooldownSeconds) in
    modify (set_cooldownSeconds newCooldownSeconds)).

(** *** Batch ledger *)

Definition openBatch (sender : address) : M unit :=
  onlyOwner sender (whenNotPaused (
    let! s := get in
    let! _ := (if Batch.isOpen (currentBatch s) then
                 let! _ := modify (updBatch (batch_set_isOpen false)) in
                 let! s1 := get in
                 emit (BatchClosed (Batch.id (currentBatch s1)))
               else ret tt) in
    let! s2 := get in
    let! newId := checkedAdd (Batch.id (currentBatch s2)) 1 in
    let! _ := modify (set_currentBatch (Batch.mk newId true 0 0 0)) in
    let! s3 := get in
    emit (BatchOpened (Batch.id (currentBatch s3))))).

Definition closeBatch (sender : address) : M unit :=
  onlyOwner sender (whenNotPaused (
    let! s := get in
    let! _ := revertIf (negb (Batch.isOpen (currentBatch s))) BatchNotOpen in
    let! _ := modify (updBatch (batch_set_isOpen false)) in
    let! s1 := get in
    emit (BatchClosed (Batch.id (currentBatch s1))))).

Definition submitData (sender : address) (now : uint256)
    (encryptedCongestionScore encryptedEcoScore : uint256) : M unit :=
  onlyProvider sender now (whenNotPaused (submissionRateLimited sender now (
    let! s := get in
    let! _ := revertIf (negb (Batch.isOpen (currentBatch s))) BatchNotOpen in
    let! _ := revertIf (negb (FHE_isInitialized encryptedCongestionScore))
                (ErrorString "Congestion score not initialized") in
    let! _ := revertIf (negb (FHE_isInitialized encryptedEcoScore))
                (ErrorString "Eco score not initialized") in
    let! _ := modify (fun s => updBatch (batch_set_congestion
                (FHE_add (Batch.totalEncryptedCongestionScore (currentBatch s))
                   encryptedCongestionScore)) s) in
    let! _ := modify (fun s => updBatch (batch_set_eco
                (FHE_add (Batch.totalEncryptedEcoScore (currentBatch s))
                   encryptedEcoScore)) s) in
    let! s1 := get in
    let! n := checkedAdd (Batch.submissionCount (currentBatch s1)) 1 in
    let! _ := modify (updBatch (batch_set_submissionCount n)) in
    let! s2 := get in
    emit (DataSubmitted sender (Batch.id (currentBatch s2)))))).

(** *** Decryption coordinator *)

Definition _hashCiphertexts (cts : list bytes32) : bytes32 := keccak256 cts this.

(** The two handles of the current batch, as passed to the oracle and to
    the hash ([FHE.toBytes32] of the stored totals). *)
Definition batchCiphertexts (b : Batch.t) : list bytes32 :=
  [Batch.totalEncryptedCongestionScore b; Batch.totalEncryptedEcoScore b].

(** [FHE.requestDecryption(cts, selector)]: sends the request to the oracle
    and returns the request id the oracle side assigns; the id is supplied
    by the environment of the call ([oracleRequestId]). *)
Definition FHE_requestDecryption (oracleRequestId : uint256) (cts : list bytes32)
  : M uint256 :=
  let! _ := oracle cts in
  ret oracleRequestId.

Definition requestBatchDecryption (sender : address) (now : uint256)
    (oracleRequestId : uint256) : M unit :=
  onlyOwner sender (whenNotPaused (decryptionRateLimited sender now (
    let! s := get in
    let! _ := revertIf (Batch.isOpen (currentBatch s)) BatchNotOpen in
    let! _ := revertIf (Batch.submissionCount (currentBatch s) =? 0)
                (ErrorString "No data to decrypt") in
    let cts := batchCiphertexts (currentBatch s) in
    let stateHash := _hashCiphertexts cts in
    let! requestId := FHE_requestDecryption oracleRequestId cts in
    let! s1 := get in
    let! _ := modify (set_decryptionContext requestId
                {| batchId := Batch.id (currentBatch s1);
                   stateHash := stateHash;
                   processed := false |}) in
    let! s2 := get in
    emit (DecryptionRequested requestId (Batch.id (currentBatch s2)))))).

(** The storage a request that goes through leaves: the context stored under
    the request id and the time of the request recorded for the sender. *)
Definition requested (sender : address) (now requestId : uint256) (s : Storage)
  : Storage :=
  set_lastDecryptionRequestTime sender now
    (set_decryptionContext requestId
       {| batchId := Batch.id (currentBatch s);
          stateHash := _hashCiphertexts (batchCiphertexts (currentBatch s));
          processed := false |} s).

Definition myCallback (requestId : uint256) (cleartexts proof : bytes) : M unit :=
  let! _ := revertIf (requestId =? 0) (ErrorString "Invalid request ID") in
  let! s := get in
  let ctx := readContext (decryptionContexts s) requestId in
  let! _ := revertIf (processed ctx) ReplayAttempt in
  let batch := currentBatch s in
  let! _ := revertIf (negb (Batch.id batch =? batchId ctx)) InvalidBatchId in
  let cts := batchCiphertexts batch in
  let currentHash := _hashCiphertexts cts in
  let! _ := revertIf (negb (currentHash =? stateHash ctx)) StateMismatch in
  if FHE_checkSignatures requestId cleartexts proof then
    match abiDecodeUint32Pair cleartexts with
    | None => revert RevertEmpty
    | Some (totalCongestionScoreCleartext, totalEcoScoreCleartext) =>
        let! _ := modify (set_decryptionContext requestId
                    {| batchId := batchId ctx;
                       stateHash := stateHash ctx;
                       processed := true |}) in
        emit (DecryptionCompleted requestId (batchId ctx)
                totalCongestionScoreCleartext totalEcoScoreCleartext)
    end
  else revert InvalidProof.

End Contract.

(** ** Transactions

    One external call, with the data the environment supplies to it:
    [msg.sender], [block.timestamp], and for a decryption request the request
    id the oracle side hands back. *)

Inductive Call : Type :=
| TransferOwnership (newOwner : address)
| AddProvider (provider : address)
| RemoveProvider (provider : address)
| Pause
| Unpause
| SetCooldownSeconds (newCooldownSeconds : uint256)
| OpenBatch
| CloseBatch
| SubmitData (encryptedCongestionScore encryptedEcoScore : uint256)
| RequestBatchDecryption (oracleRequestId : uint256)
| MyCallback (requestId : uint256) (cleartexts proof : bytes).

Record Tx : Type := mkTx {
  txSender : address;
  txTimestamp : uint256;
  txCall : Call
}.

(** What a call leaves behind: a reverted call leaves the storage as it was
    and produces nothing. *)

Definition commit {A} (c : M A) (s : Storage) : Storage :=
  match c s with
  | Ok (_, s', _) => s'
  | Err _ => s
  end.

Definition outputs {A} (c : M A) (s : Storage) : list Effect :=
  match c s with
  | Ok (_, _, out) => out
  | Err _ => []
  end.

Section Transactions.

Variable this : address.
Variable keccak256 : list bytes32 -> address -> bytes32.
Variable FHE_add : uint256 -> uint256 -> uint256.
Variable FHE_isInitialized : uint256 -> bool.
Variable FHE_checkSignatures : uint256 -> bytes -> bytes -> bool.

Definition dispatch (tx : Tx) : M unit :=
  let sender := txSender tx in
  let now := txTimestamp tx in
  match txCall tx with
  | TransferOwnership newOwner => transferOwnership sender newOwner
  | AddProvider p => addProvider sender p
  | RemoveProvider p => removeProvider sender p
  | Pause => pause sender
  | Unpause => unpause sender
  | SetCooldownSeconds n => setCooldownSeconds sender n
  | OpenBatch => openBatch sender
  | CloseBatch => closeBatch sender
  | SubmitData c e => submitData FHE_add FHE_isInitialized sender now c e
  | RequestBatchDecryption rid =>
      requestBatchDecryption this keccak256 sender now rid
  | MyCallback rid cleartexts proof =>
      myCallback this keccak256 FHE_checkSignatures rid cleartexts proof
  end.

Definition execute (tx : Tx) (s : Storage) : Storage := commit (dispatch tx) s.

Definition executeAll (txs : list Tx) (s : Storage) : Storage :=
  fold_left (fun acc tx => execute tx acc) txs s.

(** The storages the contract can be in: the constructor's, and what a
    transaction makes of one. *)
Inductive reachable : Storage -> Prop :=
| reachable_constructor (deployer : address) : reachable (constructor deployer)
| reachable_execute (tx : Tx) (s : Storage) :
    reachable s -> reachable (execute tx s).

End Transactions.

(** ** Kinds of failure

    A failure is typed when it is one of the custom errors the contract
    declares; a reason-string revert, a panic and a revert without data are
    Solidity's generic failures. *)

Definition isCustomError (e : Error) : bool :=
  match e with
  | ErrorString _ | Panic _ | RevertEmpty => false
  | _ => true
  end.

(** The reason strings the contract reverts with. *)
Definition reasonStrings : list string :=
  [ "Cooldown must be positive";
    "Congestion score not initialized";
    "Eco score not initialized";
    "No data to decrypt";
    "Invalid request ID" ]%string.

(** What a failure of the contract can be: a declared custom error, one of
    the reason strings, the overflow panic of checked arithmetic, or the
    revert without data of a failed decoding. *)
Definition knownFailure (e : Error) : Prop :=
  isCustomError e = true \/
  (exists reason, e = ErrorString reason /\ In reason reasonStrings) \/
  e = Panic 17 \/
  e = RevertEmpty.

(** ** Observations on a log *)

(** The numbers of [BatchClosed] and of [BatchOpened] events in a log. *)
Definition countClosed (out : list Effect) : nat :=
  length (List.filter (fun e => match e with Emit (BatchClosed _) => true | _ => false end) out).

Definition countOpened (out : list Effect) : nat :=
  length (List.filter (fun e => match e with Emit (BatchOpened _) => true | _ => false end) out).

(** ** A concrete instance of the library, to run the contract on inputs *)

Module Instance.

Definition this : address := 4096.

(** An injective stand-in for [keccak256(abi.encode(cts, addr))]. *)
Definition keccak256 (cts : list bytes32) (addr : address) : bytes32 :=
  Z.pos (encode (cts, addr)).

Definition FHE_add (a b : uint256) : uint256 := a + b.
Definition FHE_isInitialized (h : uint256) : bool := negb (h =? 0).

(** Accepts exactly the one-byte proof [0x01]. *)
Definition FHE_checkSignatures (requestId : uint256) (cleartexts proof : bytes)
  : bool :=
  match proof with
  | [Byte.x01] => true
  | _ => false
  end.

Definition run : Tx -> Storage -> Storage :=
  execute this keccak256 FHE_add FHE_isInitialized FHE_checkSignatures.

Definition call : Tx -> M unit :=
  dispatch this keccak256 FHE_add FHE_isInitialized FHE_checkSignatures.

(** A 32-byte big-endian word holding a small number. *)
Definition word (b : Byte.byte) : bytes := repeat Byte.x00 31 ++ [b].

Definition admin : address := 1.
Definition alice : address := 2.
Definition mallory : address := 3.

(** The end-to-end scenario up to the closed batch: [admin] deploys,
    authorises [alice] and opens batch 2; [alice] submits (5, 3) twice, a
    cooldown apart; [admin] closes the batch. *)
Definition closedBatch : Storage :=
  executeAll this keccak256 FHE_add FHE_isInitialized FHE_checkSignatures
    [ mkTx admin 100 (AddProvider alice);
      mkTx admin 100 OpenBatch;
      mkTx alice 200 (SubmitData 5 3);
      mkTx alice 260 (SubmitData 5 3);
      mkTx admin 290 CloseBatch ]
    (constructor admin).

(** The scenario after the first submission of [alice], at time 200. *)
Definition firstSubmission : Storage :=
  executeAll this keccak256 FHE_add FHE_isInitialized FHE_checkSignatures
    [ mkTx admin 100 (AddProvider alice);
      mkTx admin 100 OpenBatch;
      mkTx alice 200 (SubmitData 5 3) ]
    (constructor admin).

(** ... and the decryption request, answered by the oracle with id 7. *)
Definition pendingRequest : Storage :=
  run (mkTx admin 300 (RequestBatchDecryption 7)) closedBatch.

(** The cleartexts (10, 6), ABI-encoded. *)
Definition cleartexts_10_6 : bytes := word Byte.x0a ++ word Byte.x06.

End Instance.

(** ** Sequences of submissions

    The submissions of one batch, sent one after the other: each with its
    sender, its block time and its two ciphertext handles. The sequence
    returns when every submission returns. *)

Record Submission : Type := mkSubmission {
  subSender : address;
  subTime : uint256;
  subCongestion : uint256;
  subEco : uint256
}.

Fixpoint submitAll (FHE_add : uint256 -> uint256 -> uint256)
    (FHE_isInitialized : uint256 -> bool) (subs : list Submission) : M unit :=
  match subs with
  | [] => ret tt
  | x :: rest =>
      let! _ := submitData FHE_add FHE_isInitialized (subSender x) (subTime x)
                  (subCongestion x) (subEco x) in
      submitAll FHE_add FHE_isInitialized rest
  end.

(** The administrative calls: the external functions that carry [onlyOwner]. *)
Definition isOwnerCall (c : Call) : bool :=
  match c with
  | SubmitData _ _ | MyCallback _ _ _ => false
  | _ => true
  end.


(** ** The invariant of the storage

    What holds of the storage after the constructor and after every
    transaction: a positive cooldown; a batch id and a submission count that
    are [uint256] values, the id at least 1; an empty batch with zero
    aggregates; and for every stored decryption context, a batch id between 1
    and the current one, no processed context under the request id 0, and, if
    the context is for the current batch, a batch that is closed, not empty,
    and whose handles still hash to the stored state hash. *)

Definition invariant (this : address) (keccak256 : list bytes32 -> address -> bytes32)
    (s : Storage) : Prop :=
  0 < cooldownSeconds s /\
  1 <= Batch.id (currentBatch s) <= MAX_UINT256 /\
  0 <= Batch.submissionCount (currentBatch s) <= MAX_UINT256 /\
  (Batch.submissionCount (currentBatch s) = 0 ->
     Batch.totalEncryptedCongestionScore (currentBatch s) = 0 /\
     Batch.totalEncryptedEcoScore (currentBatch s) = 0) /\
  forall (requestId : uint256) (ctx : DecryptionContext),
    decryptionContexts s !! requestId = Some ctx ->
    1 <= batchId ctx <= Batch.id (currentBatch s) /\
    (processed ctx = true -> requestId <> 0) /\
    (batchId ctx = Batch.id (currentBatch s) ->
       Batch.isOpen (currentBatch s) = false /\
       Batch.submissionCount (currentBatch s) <> 0 /\
       stateHash ctx
       = _hashCiphertexts this keccak256 (batchCiphertexts (currentBatch s))).

(** ** The log of a sequence of transactions

    What a sequence of transactions emits, in order; a reverted transaction
    emits nothing. *)

Fixpoint logAll (this : address) (keccak256 : list bytes32 -> address -> bytes32)
    (FHE_add : uint256 -> uint256 -> uint256) (FHE_isInitialized : uint256 -> bool)
    (FHE_checkSignatures : uint256 -> bytes -> bytes -> bool)
    (txs : list Tx) (s : Storage) : list Effect :=
  match txs with
  | [] => []
  | tx :: rest =>
      outputs (dispatch this keccak256 FHE_add FHE_isInitialized FHE_checkSignatures tx) s
      ++ logAll this keccak256 FHE_add FHE_isInitialized FHE_checkSignatures rest
           (execute this keccak256 FHE_add FHE_isInitialized FHE_checkSignatures tx s)
  end.

(** ** More storages of the scenario *)

Module Scenario.

(** Batch 2 just opened, [alice] authorised, nothing submitted yet. *)
Definition openedBatch : Storage :=
  executeAll Instance.this Instance.keccak256 Instance.FHE_add
    Instance.FHE_isInitialized Instance.FHE_checkSignatures
    [ mkTx Instance.admin 100 (AddProvider Instance.alice);
      mkTx Instance.admin 100 OpenBatch ]
    (constructor Instance.admin).

(** Batch 3 opened while the request 7 for batch 2 is still pending. *)
Definition reopened : Storage :=
  Instance.run (mkTx Instance.admin 400 OpenBatch) Instance.pendingRequest.


(** The cooldown raised to the largest [uint256] after the first submission
    of [alice]. *)
Definition longestCooldown : Storage :=
  Instance.run (mkTx Instance.admin 250 (SetCooldownSeconds MAX_UINT256))
    Instance.firstSubmission.

(** Two submissions of [alice], a cooldown apart, and the same two handles
    pairs the other way round. *)
Definition twoSubmissions : list Submission :=
  [ mkSubmission Instance.alice 200 5 3; mkSubmission Instance.alice 260 7 1 ].

Definition twoSubmissionsSwapped : list Submission :=
  [ mkSubmission Instance.alice 200 7 1; mkSubmission Instance.alice 260 5 3 ].

(** The whole scenario, from the constructor to the oracle's answer. *)
Definition wholeScenario : list Tx :=
  [ mkTx Instance.admin 100 (AddProvider Instance.alice);
    mkTx Instance.admin 100 OpenBatch;
    mkTx Instance.alice 200 (SubmitData 5 3);
    mkTx Instance.alice 260 (SubmitData 5 3);
    mkTx Instance.admin 290 CloseBatch;
    mkTx Instance.admin 300 (RequestBatchDecryption 7);
    mkTx Instance.mallory 400 (MyCallback 7 Instance.cleartexts_10_6 [Byte.x01]) ].

End Scenario.

(** * Properties *)

(** ** Running the monad *)

Lemma bind_Ok_l {A B} (c : M A) (k : A -> M B) s a s1 :
  c s = Ok (a, s1, []) -> bind c k s = k a s1.
Proof.
  unfold bind. intros ->. destruct (k a s1) as [[[b s2] out]|e]; reflexivity.
Qed.

Lemma bind_get {A} (k : Storage -> M A) s : bind get k s = k s s.
Proof. apply bind_Ok_l. reflexivity. Qed.

Lemma bind_revertIf_false {A} e (k : unit -> M A) s :
  bind (revertIf false e) k s = k tt s.
Proof. apply bind_Ok_l. reflexivity. Qed.

(** The modifiers, when their guard holds and when it does not. *)

Lemma onlyOwner_pass {A} sender (body : M A) s :
  sender = owner s -> onlyOwner sender body s = body s.
Proof.
  intros ->. unfold onlyOwner. rewrite bind_get, Z.eqb_refl.
  exact (bind_revertIf_false NotOwner (fun _ => body) s).
Qed.

Lemma onlyOwner_fail {A} sender (body : M A) s :
  sender <> owner s -> onlyOwner sender body s = Err NotOwner.
Proof.
  intros H. unfold onlyOwner. rewrite bind_get.
  destruct (Z.eqb_spec sender (owner s)); [contradiction | reflexivity].
Qed.

Lemma whenNotPaused_pass {A} (body : M A) s :
  paused s = false -> whenNotPaused body s = body s.
Proof.
  intros H. unfold whenNotPaused. rewrite bind_get, H.
  exact (bind_revertIf_false Paused (fun _ => body) s).
Qed.

Lemma whenNotPaused_fail {A} (body : M A) s :
  paused s = true -> whenNotPaused body s = Err Paused.
Proof. intros H. unfold whenNotPaused. rewrite bind_get, H. reflexivity. Qed.

(** ** Access control: the submitter set *)

Section AccessControl.

Variables (s : Storage) (sender p : address).

Lemma readFlag_set_isProvider v :
  readFlag (isProvider (set_isProvider p v s)) p = v.
Proof. unfold readFlag. simpl. rewrite lookup_insert_eq. reflexivity. Qed.

Lemma addProvider_not_owner :
  sender <> owner s -> addProvider sender p s = Err NotOwner.
Proof. apply onlyOwner_fail. Qed.

Lemma removeProvider_not_owner :
  sender <> owner s -> removeProvider sender p s = Err NotOwner.
Proof. apply onlyOwner_fail. Qed.

Lemma addProvider_present :
  sender = owner s -> readFlag (isProvider s) p = true ->
  addProvider sender p s = Ok (tt, s, []).
Proof.
  intros Ho Hp. unfold addProvider. rewrite onlyOwner_pass by assumption.
  rewrite bind_get, Hp. reflexivity.
Qed.

Lemma addProvider_absent :
  sender = owner s -> readFlag (isProvider s) p = false ->
  addProvider sender p s
  = Ok (tt, set_isProvider p true s, [Emit (ProviderAdded p)]).
Proof.
  intros Ho Hp. unfold addProvider. rewrite onlyOwner_pass by assumption.
  rewrite bind_get, Hp. reflexivity.
Qed.

Lemma removeProvider_absent :
  sender = owner s -> readFlag (isProvider s) p = false ->
  removeProvider sender p s = Ok (tt, s, []).
Proof.
  intros Ho Hp. unfold removeProvider. rewrite onlyOwner_pass by assumption.
  rewrite bind_get, Hp. reflexivity.
Qed.

Lemma removeProvider_present :
  sender = owner s -> readFlag (isProvider s) p = true ->
  removeProvider sender p s
  = Ok (tt, set_isProvider p false s, [Emit (ProviderRemoved p)]).
Proof.
  intros Ho Hp. unfold removeProvider. rewrite onlyOwner_pass by assumption.
  rewrite bind_get, Hp. reflexivity.
Qed.

End AccessControl.

(** The four ways a toggle can go, as one case analysis. *)
Ltac toggle_cases s sender p :=
  destruct (Z.eq_dec sender (owner s)) as [Ho|Ho];
  destruct (readFlag (isProvider s) p) eqn:Hp;
  unfold commit, outputs;
  rewrite ?(addProvider_not_owner s sender p Ho),
          ?(removeProvider_not_owner s sender p Ho),
          ?(addProvider_present s sender p Ho Hp),
          ?(addProvider_absent s sender p Ho Hp),
          ?(removeProvider_present s sender p Ho Hp),
          ?(removeProvider_absent s sender p Ho Hp).

(** C10. [addProvider] and [removeProvider] are idempotent. For a principal
    already in the desired state the call leaves the storage (so the
    submitter flags) as it was and emits nothing, and called by the owner it
    returns normally; a call repeated right after itself changes nothing and
    emits nothing; and whatever the caller and the state, the call emits
    either nothing or exactly the one event [ProviderAdded p]
    (resp. [ProviderRemoved p]), the latter exactly when the owner's call
    flips the flag of [p]. *)
Theorem provider_toggle_idempotent (s : Storage) (sender p : address) :
  (readFlag (isProvider s) p = true ->
     commit (addProvider sender p) s = s /\ outputs (addProvider sender p) s = [] /\
     (sender = owner s -> addProvider sender p s = Ok (tt, s, []))) /\
  (readFlag (isProvider s) p = false ->
     commit (removeProvider sender p) s = s /\ outputs (removeProvider sender p) s = [] /\
     (sender = owner s -> removeProvider sender p s = Ok (tt, s, []))) /\
  (commit (addProvider sender p) (commit (addProvider sender p) s)
     = commit (addProvider sender p) s /\
   outputs (addProvider sender p) (commit (addProvider sender p) s) = []) /\
  (commit (removeProvider sender p) (commit (removeProvider sender p) s)
     = commit (removeProvider sender p) s /\
   outputs (removeProvider sender p) (commit (removeProvider sender p) s) = []) /\
  (outputs (addProvider sender p) s = [Emit (ProviderAdded p)] /\
     sender = owner s /\ readFlag (isProvider s) p = false /\
     readFlag (isProvider (commit (addProvider sender p) s)) p = true
   \/ outputs (addProvider sender p) s = [] /\
     (sender <> owner s \/ readFlag (isProvider s) p = true) /\
     commit (addProvider sender p) s = s) /\
  (outputs (removeProvider sender p) s = [Emit (ProviderRemoved p)] /\
     sender = owner s /\ readFlag (isProvider s) p = true /\
     readFlag (isProvider (commit (removeProvider sender p) s)) p = false
   \/ outputs (removeProvider sender p) s = [] /\
     (sender <> owner s \/ readFlag (isProvider s) p = false) /\
     commit (removeProvider sender p) s = s).
Proof.
  split_and!.
  - intros Hflag. toggle_cases s sender p; try discriminate Hflag;
      intuition congruence.
  - intros Hflag. toggle_cases s sender p; try discriminate Hflag;
      intuition congruence.
  - toggle_cases s sender p; try reflexivity.
    rewrite addProvider_present; [reflexivity | exact Ho | apply readFlag_set_isProvider].
  - toggle_cases s sender p; try reflexivity.
    rewrite addProvider_present; [reflexivity | exact Ho | apply readFlag_set_isProvider].
  - toggle_cases s sender p; try reflexivity.
    rewrite removeProvider_absent; [reflexivity | exact Ho | apply readFlag_set_isProvider].
  - toggle_cases s sender p; try reflexivity.
    rewrite removeProvider_absent; [reflexivity | exact Ho | apply readFlag_set_isProvider].
  - toggle_cases s sender p.
    + right. auto.
    + left. repeat split; try assumption. apply readFlag_set_isProvider.
    + right. auto.
    + right. auto.
  - toggle_cases s sender p.
    + left. repeat split; try assumption. apply readFlag_set_isProvider.
    + right. auto.
    + right. auto.
    + right. auto.
Qed.

(** ** Access control: the pause flag *)

Lemma pause_run (s : Storage) (sender : address) :
  sender = owner s ->
  pause sender s
  = if paused s then Err Paused
    else Ok (tt, set_paused true s, [Emit (ContractPaused sender)]).
Proof.
  intros Ho. unfold pause. rewrite onlyOwner_pass by assumption.
  destruct (paused s) eqn:Hp.
  - apply whenNotPaused_fail. assumption.
  - rewrite whenNotPaused_pass by assumption. reflexivity.
Qed.

Lemma unpause_run (s : Storage) (sender : address) :
  sender = owner s ->
  unpause sender s = Ok (tt, set_paused false s, [Emit (ContractUnpaused sender)]).
Proof.
  intros Ho. unfold unpause. rewrite onlyOwner_pass by assumption. reflexivity.
Qed.

(** C9. Called by the owner, [pause] reverts when the pause flag is already
    set; the revert is the one of the [whenNotPaused] modifier, the
    contract's [Paused] error (the specification names this failure
    AlreadyPaused). When the flag is not set, [pause] sets it. [unpause] has
    no such guard: called by the owner it returns normally in every state,
    paused or not, and leaves the flag cleared. *)
Theorem pause_guarded_unpause_unguarded (s : Storage) (sender : address) :
  sender = owner s ->
  (paused s = true -> pause sender s = Err Paused) /\
  (paused s = false ->
     pause sender s = Ok (tt, set_paused true s, [Emit (ContractPaused sender)])) /\
  unpause sender s = Ok (tt, set_paused false s, [Emit (ContractUnpaused sender)]) /\
  paused (commit (unpause sender) s) = false /\
  commit (unpause sender) (commit (unpause sender) s) = commit (unpause sender) s.
Proof.
  intros Ho. split_and!.
  - intros Hp. rewrite pause_run by assumption. rewrite Hp. reflexivity.
  - intros Hp. rewrite pause_run by assumption. rewrite Hp. reflexivity.
  - apply unpause_run. assumption.
  - unfold commit. rewrite unpause_run by assumption. reflexivity.
  - unfold commit. rewrite (unpause_run s sender Ho).
    rewrite (unpause_run (set_paused false s) sender Ho). reflexivity.
Qed.

(** [pause] twice by the deployer: the second call reverts; [unpause] twice:
    both calls return. *)
Lemma pause_guarded_unpause_unguarded_witness :
  pause Instance.admin (set_paused true (constructor Instance.admin)) = Err Paused /\
  unpause Instance.admin (constructor Instance.admin)
  = Ok (tt, set_paused false (constructor Instance.admin),
        [Emit (ContractUnpaused Instance.admin)]).
Proof.
  split.
  - apply (pause_guarded_unpause_unguarded
             (set_paused true (constructor Instance.admin)) Instance.admin);
      reflexivity.
  - apply (pause_guarded_unpause_unguarded
             (constructor Instance.admin) Instance.admin).
    reflexivity.
Defined.

(** ** Batch ledger: opening a batch *)

Lemma openBatch_run (s : Storage) (sender : address) :
  sender = owner s -> paused s = false ->
  Batch.id (currentBatch s) + 1 <= MAX_UINT256 ->
  openBatch sender s
  = Ok (tt,
        set_currentBatch (Batch.mk (Batch.id (currentBatch s) + 1) true 0 0 0) s,
        (if Batch.isOpen (currentBatch s)
         then [Emit (BatchClosed (Batch.id (currentBatch s)))] else [])
        ++ [Emit (BatchOpened (Batch.id (currentBatch s) + 1))]).
Proof.
  intros Ho Hp Hid. unfold openBatch.
  rewrite onlyOwner_pass, whenNotPaused_pass by assumption.
  rewrite bind_get.
  destruct (Batch.isOpen (currentBatch s)) eqn:Hopen;
    unfold bind, modify, get, emit, ret, checkedAdd;
    cbn -[Z.leb Z.add MAX_UINT256];
    (destruct (Z.leb_spec (Batch.id (currentBatch s) + 1) MAX_UINT256); [reflexivity | lia]).
Qed.

Lemma openBatch_overflow (s : Storage) (sender : address) :
  sender = owner s -> paused s = false ->
  MAX_UINT256 < Batch.id (currentBatch s) + 1 ->
  openBatch sender s = Err (Panic 17).
Proof.
  intros Ho Hp Hid. unfold openBatch.
  rewrite onlyOwner_pass, whenNotPaused_pass by assumption.
  rewrite bind_get.
  destruct (Batch.isOpen (currentBatch s)) eqn:Hopen;
    unfold bind, modify, get, emit, ret, checkedAdd;
    cbn -[Z.leb Z.add MAX_UINT256];
    (destruct (Z.leb_spec (Batch.id (currentBatch s) + 1) MAX_UINT256); [lia | reflexivity]).
Qed.

(** Opening twice from the constructor's storage, whose batch is closed:
    the log is [BatchOpened 2], [BatchClosed 2], [BatchOpened 3], with one
    [BatchClosed] only, not two pairs. *)
Lemma openBatch_twice_from_closed :
  outputs (openBatch Instance.admin) (constructor Instance.admin)
  ++ outputs (openBatch Instance.admin)
       (commit (openBatch Instance.admin) (constructor Instance.admin))
  = [Emit (BatchOpened 2); Emit (BatchClosed 2); Emit (BatchOpened 3)] /\
  countClosed
    (outputs (openBatch Instance.admin) (constructor Instance.admin)
     ++ outputs (openBatch Instance.admin)
          (commit (openBatch Instance.admin) (constructor Instance.admin)))
  <> 2%nat.
Proof. split; [reflexivity | vm_compute; discriminate]. Qed.

(** C5, as the code has it. Called twice in a row by the owner while the
    contract is not paused and the batch id can still grow by two, [openBatch]
    returns both times; each call makes the current batch a fresh open batch
    whose id is the previous id plus exactly 1 and whose aggregates and
    [submissionCount] are 0; each call emits [BatchOpened] of the new id,
    preceded by [BatchClosed] of the old id exactly when the batch it found
    was open. So the second call always emits the pair, the first one only
    from an open batch: two opens give two [BatchOpened], and two
    [BatchClosed] from an open starting batch but one from a closed one. *)
Theorem openBatch_twice (s : Storage) (sender : address) :
  sender = owner s -> paused s = false ->
  Batch.id (currentBatch s) + 2 <= MAX_UINT256 ->
  exists s1 s2 out1 out2,
    openBatch sender s = Ok (tt, s1, out1) /\
    openBatch sender s1 = Ok (tt, s2, out2) /\
    out1 = (if Batch.isOpen (currentBatch s)
            then [Emit (BatchClosed (Batch.id (currentBatch s)))] else [])
           ++ [Emit (BatchOpened (Batch.id (currentBatch s) + 1))] /\
    out2 = [Emit (BatchClosed (Batch.id (currentBatch s) + 1));
            Emit (BatchOpened (Batch.id (currentBatch s) + 2))] /\
    currentBatch s1 = Batch.mk (Batch.id (currentBatch s) + 1) true 0 0 0 /\
    currentBatch s2 = Batch.mk (Batch.id (currentBatch s) + 2) true 0 0 0 /\
    countOpened (out1 ++ out2) = 2%nat /\
    countClosed (out1 ++ out2)
    = if Batch.isOpen (currentBatch s) then 2%nat else 1%nat.
Proof.
  intros Ho Hp Hid.
  set (n := Batch.id (currentBatch s)) in *.
  set (s1 := set_currentBatch (Batch.mk (n + 1) true 0 0 0) s).
  assert (H1 : openBatch sender s
               = Ok (tt, s1,
                     (if Batch.isOpen (currentBatch s)
                      then [Emit (BatchClosed n)] else [])
                     ++ [Emit (BatchOpened (n + 1))])).
  { apply openBatch_run; [assumption | assumption | fold n; lia]. }
  assert (H2 : openBatch sender s1
               = Ok (tt, set_currentBatch (Batch.mk (n + 2) true 0 0 0) s1,
                     [Emit (BatchClosed (n + 1)); Emit (BatchOpened (n + 2))])).
  { rewrite openBatch_run; [| exact Ho | exact Hp | simpl; lia ].
    simpl. replace (n + 1 + 1) with (n + 2) by lia. reflexivity. }
  eexists _, _, _, _. split; [exact H1|]. split; [exact H2|].
  split_and!; try reflexivity.
  - destruct (Batch.isOpen (currentBatch s)); reflexivity.
  - destruct (Batch.isOpen (currentBatch s)); reflexivity.
Qed.

(** Two opens from the constructor's closed batch: the second one finds the
    open batch 2 and leaves the open batch 3. *)
Lemma openBatch_twice_witness :
  exists s2 out2,
    openBatch Instance.admin
      (commit (openBatch Instance.admin) (constructor Instance.admin))
    = Ok (tt, s2, out2) /\
    currentBatch s2 = Batch.mk 3 true 0 0 0.
Proof.
  destruct (openBatch_twice (constructor Instance.admin) Instance.admin)
    as (s1 & s2 & out1 & out2 & H1 & H2 & _ & _ & _ & H6 & _).
  - reflexivity.
  - reflexivity.
  - apply Z.leb_le. reflexivity.
  - exists s2, out2. split; [| exact H6].
    unfold commit. rewrite H1. exact H2.
Defined.

(** ** Rate limiter *)

(** What the two rate-limiting modifiers and [onlyProvider] compute. *)

Lemma submissionRateLimited_run {A} (sender : address) (now : uint256)
    (body : M A) (s : Storage) :
  submissionRateLimited sender now body s
  = if readUint (lastSubmissionTime s) sender + cooldownSeconds s <=? MAX_UINT256
    then if now <? readUint (lastSubmissionTime s) sender + cooldownSeconds s
         then Err CooldownActive
         else body s
    else Err (Panic 17).
Proof.
  unfold submissionRateLimited, checkedAdd, bind, get, revertIf, revert, ret.
  destruct (_ <=? MAX_UINT256); [|reflexivity].
  destruct (now <? _); [reflexivity|].
  destruct (body s) as [[[r s'] out]|e]; reflexivity.
Qed.

Lemma decryptionRateLimited_run {A} (sender : address) (now : uint256)
    (body : M A) (s : Storage) :
  decryptionRateLimited sender now body s
  = if readUint (lastDecryptionRequestTime s) sender + cooldownSeconds s
       <=? MAX_UINT256
    then if now <? readUint (lastDecryptionRequestTime s) sender + cooldownSeconds s
         then Err CooldownActive
         else match body s with
              | Ok (r, s', out) =>
                  Ok (r, set_lastDecryptionRequestTime sender now s', out)
              | Err e => Err e
              end
    else Err (Panic 17).
Proof.
  unfold decryptionRateLimited, checkedAdd, bind, get, modify, revertIf, revert, ret.
  destruct (_ <=? MAX_UINT256); [|reflexivity].
  destruct (now <? _); [reflexivity|].
  cbn. destruct (body s) as [[[r s'] out]|e]; [|reflexivity].
  rewrite !app_nil_r. reflexivity.
Qed.

Lemma onlyProvider_run {A} (sender : address) (now : uint256)
    (body : M A) (s : Storage) :
  onlyProvider sender now body s
  = if readFlag (isProvider s) sender
    then match body s with
         | Ok (r, s', out) => Ok (r, set_lastSubmissionTime sender now s', out)
         | Err e => Err e
         end
    else Err NotProvider.
Proof.
  unfold onlyProvider, bind, get, modify, revertIf, revert, ret.
  destruct (readFlag (isProvider s) sender); [|reflexivity].
  cbn. destruct (body s) as [[[r s'] out]|e]; [|reflexivity].
  rewrite !app_nil_r. reflexivity.
Qed.

Lemma whenNotPaused_run {A} (body : M A) (s : Storage) :
  whenNotPaused body s = if paused s then Err Paused else body s.
Proof.
  destruct (paused s) eqn:Hp.
  - apply whenNotPaused_fail. assumption.
  - apply whenNotPaused_pass. assumption.
Qed.

Lemma onlyOwner_run {A} (sender : address) (body : M A) (s : Storage) :
  onlyOwner sender body s = if sender =? owner s then body s else Err NotOwner.
Proof.
  destruct (Z.eqb_spec sender (owner s)).
  - apply onlyOwner_pass. assumption.
  - apply onlyOwner_fail. assumption.
Qed.

(** ** Decryption coordinator: issuing a request *)

Section Coordinator.

Variable this : address.
Variable keccak256 : list bytes32 -> address -> bytes32.
Variable FHE_checkSignatures : uint256 -> bytes -> bytes -> bool.

Local Abbreviation request := (requestBatchDecryption this keccak256).
Local Abbreviation callback := (myCallback this keccak256 FHE_checkSignatures).
Local Abbreviation hash := (_hashCiphertexts this keccak256).

(** The body of [requestBatchDecryption], below its three modifiers. *)
Lemma requestBatchDecryption_run (s : Storage) (sender : address)
    (now requestId : uint256) :
  request sender now requestId s
  = if sender =? owner s then
      if paused s then Err Paused
      else if readUint (lastDecryptionRequestTime s) sender + cooldownSeconds s
              <=? MAX_UINT256
      then if now <? readUint (lastDecryptionRequestTime s) sender
                     + cooldownSeconds s
           then Err CooldownActive
           else if Batch.isOpen (currentBatch s) then Err BatchNotOpen
           else if Batch.submissionCount (currentBatch s) =? 0
           then Err (ErrorString "No data to decrypt")
           else Ok (tt, requested this keccak256 sender now requestId s,
                    [OracleRequest (batchCiphertexts (currentBatch s));
                     Emit (DecryptionRequested requestId
                             (Batch.id (currentBatch s)))])
      else Err (Panic 17)
    else Err NotOwner.
Proof.
  unfold requestBatchDecryption.
  rewrite onlyOwner_run, whenNotPaused_run, decryptionRateLimited_run.
  destruct (sender =? owner s); [|reflexivity].
  destruct (paused s); [reflexivity|].
  destruct (_ <=? MAX_UINT256); [|reflexivity].
  destruct (now <? _); [reflexivity|].
  rewrite bind_get.
  destruct (Batch.isOpen (currentBatch s)); [reflexivity|].
  rewrite bind_revertIf_false.
  destruct (Batch.submissionCount (currentBatch s) =? 0); [reflexivity|].
  reflexivity.
Qed.

Lemma readContext_requested (s : Storage) (sender : address)
    (now requestId : uint256) :
  readContext (decryptionContexts (requested this keccak256 sender now requestId s))
    requestId
  = {| batchId := Batch.id (currentBatch s);
       stateHash := hash (batchCiphertexts (currentBatch s));
       processed := false |}.
Proof. unfold readContext. simpl. rewrite lookup_insert_eq. reflexivity. Qed.

(** C6. Called by the owner while the contract is not paused and the
    decryption cooldown of the caller has elapsed, [requestBatchDecryption]
    reverts with [BatchNotOpen] when the current batch is still open and
    reverts with the reason [No data to decrypt] (the failure the
    specification names NoDataToDecrypt) when the batch is closed and its
    [submissionCount] is 0. Otherwise it returns: it sends exactly one
    request to the oracle, for the two aggregate handles, and stores under
    the request id it got back a context with the id of the current batch,
    the hash of the two handles and [processed = false]. *)
Theorem requestBatchDecryption_outcomes (s : Storage) (sender : address)
    (now requestId : uint256) :
  sender = owner s ->
  paused s = false ->
  readUint (lastDecryptionRequestTime s) sender + cooldownSeconds s
    <= MAX_UINT256 ->
  readUint (lastDecryptionRequestTime s) sender + cooldownSeconds s <= now ->
  (Batch.isOpen (currentBatch s) = true ->
     request sender now requestId s = Err BatchNotOpen) /\
  (Batch.isOpen (currentBatch s) = false ->
   Batch.submissionCount (currentBatch s) = 0 ->
     request sender now requestId s = Err (ErrorString "No data to decrypt")) /\
  (Batch.isOpen (currentBatch s) = false ->
   Batch.submissionCount (currentBatch s) <> 0 ->
     request sender now requestId s
     = Ok (tt, requested this keccak256 sender now requestId s,
           [OracleRequest (batchCiphertexts (currentBatch s));
            Emit (DecryptionRequested requestId (Batch.id (currentBatch s)))]) /\
     readContext
       (decryptionContexts (requested this keccak256 sender now requestId s))
       requestId
     = {| batchId := Batch.id (currentBatch s);
          stateHash := hash (batchCiphertexts (currentBatch s));
          processed := false |}).
Proof.
  intros Ho Hp Hfit Hcool.
  assert (Hrun := requestBatchDecryption_run s sender now requestId).
  rewrite Ho, Z.eqb_refl, Hp in Hrun. rewrite <- Ho in Hrun.
  destruct (Z.leb_spec
              (readUint (lastDecryptionRequestTime s) sender + cooldownSeconds s)
              MAX_UINT256) as [_|Hbad]; [|lia].
  destruct (Z.ltb_spec now
              (readUint (lastDecryptionRequestTime s) sender + cooldownSeconds s))
    as [Hbad|_]; [lia|].
  split_and!.
  - intros Hopen. rewrite Hopen in Hrun. exact Hrun.
  - intros Hopen Hcount. rewrite Hopen, Hcount in Hrun. exact Hrun.
  - intros Hopen Hcount. rewrite Hopen in Hrun.
    destruct (Z.eqb_spec (Batch.submissionCount (currentBatch s)) 0);
      [contradiction|].
    split; [exact Hrun | apply readContext_requested].
Qed.

End Coordinator.

(** The end-to-end scenario: the deployer authorises a submitter and opens
    batch 2, the submitter sends (5, 3) twice, the deployer closes the batch. *)
Lemma requestBatchDecryption_outcomes_witness :
  requestBatchDecryption Instance.this Instance.keccak256 Instance.admin 300 7
    Instance.closedBatch
  = Ok (tt,
        requested Instance.this Instance.keccak256 Instance.admin 300 7
          Instance.closedBatch,
        [OracleRequest [10; 6]; Emit (DecryptionRequested 7 2)]).
Proof.
  apply (requestBatchDecryption_outcomes Instance.this Instance.keccak256
           Instance.closedBatch Instance.admin 300 7).
  - reflexivity.
  - reflexivity.
  - apply Z.leb_le. reflexivity.
  - apply Z.leb_le. reflexivity.
  - reflexivity.
  - discriminate.
Defined.

(** ** Decryption coordinator: the callback *)

Section Callback.

Variable this : address.
Variable keccak256 : list bytes32 -> address -> bytes32.
Variable FHE_add : uint256 -> uint256 -> uint256.
Variable FHE_isInitialized : uint256 -> bool.
Variable FHE_checkSignatures : uint256 -> bytes -> bytes -> bool.

Local Abbreviation request := (requestBatchDecryption this keccak256).
Local Abbreviation callback := (myCallback this keccak256 FHE_checkSignatures).
Local Abbreviation hash := (_hashCiphertexts this keccak256).
Local Abbreviation exec :=
  (execute this keccak256 FHE_add FHE_isInitialized FHE_checkSignatures).
Local Abbreviation execAll :=
  (executeAll this keccak256 FHE_add FHE_isInitialized FHE_checkSignatures).
Local Abbreviation call :=
  (dispatch this keccak256 FHE_add FHE_isInitialized FHE_checkSignatures).

(** The checks of [myCallback], in the order of the source. *)
Lemma myCallback_run (s : Storage) (requestId : uint256) (cleartexts proof : bytes) :
  callback requestId cleartexts proof s
  = if requestId =? 0 then Err (ErrorString "Invalid request ID")
    else if processed (readContext (decryptionContexts s) requestId)
    then Err ReplayAttempt
    else if negb (Batch.id (currentBatch s)
                  =? batchId (readContext (decryptionContexts s) requestId))
    then Err InvalidBatchId
    else if negb (hash (batchCiphertexts (currentBatch s))
                  =? stateHash (readContext (decryptionContexts s) requestId))
    then Err StateMismatch
    else if FHE_checkSignatures requestId cleartexts proof
    then match abiDecodeUint32Pair cleartexts with
         | Some (congestion, eco) =>
             Ok (tt,
                 set_decryptionContext requestId
                   {| batchId := batchId (readContext (decryptionContexts s) requestId);
                      stateHash := stateHash (readContext (decryptionContexts s) requestId);
                      processed := true |} s,
                 [Emit (DecryptionCompleted requestId
                          (batchId (readContext (decryptionContexts s) requestId))
                          congestion eco)])
         | None => Err RevertEmpty
         end
    else Err InvalidProof.
Proof.
  unfold myCallback.
  destruct (requestId =? 0); [reflexivity|].
  rewrite bind_revertIf_false, bind_get.
  destruct (processed _); [reflexivity|].
  rewrite bind_revertIf_false.
  destruct (negb (Batch.id _ =? _)); [reflexivity|].
  rewrite bind_revertIf_false.
  destruct (negb (_hashCiphertexts _ _ _ =? _)); [reflexivity|].
  rewrite bind_revertIf_false.
  destruct (FHE_checkSignatures _ _ _); [|reflexivity].
  destruct (abiDecodeUint32Pair cleartexts) as [[c e]|]; reflexivity.
Qed.

(** A callback that returns has passed every check, and all it changes is
    the [processed] flag of its context. *)
Lemma myCallback_Ok (s s1 : Storage) (requestId : uint256)
    (cleartexts proof : bytes) (out : list Effect) :
  callback requestId cleartexts proof s = Ok (tt, s1, out) ->
  requestId <> 0 /\
  processed (readContext (decryptionContexts s) requestId) = false /\
  Batch.id (currentBatch s) = batchId (readContext (decryptionContexts s) requestId) /\
  hash (batchCiphertexts (currentBatch s))
  = stateHash (readContext (decryptionContexts s) requestId) /\
  FHE_checkSignatures requestId cleartexts proof = true /\
  s1 = set_decryptionContext requestId
         {| batchId := batchId (readContext (decryptionContexts s) requestId);
            stateHash := stateHash (readContext (decryptionContexts s) requestId);
            processed := true |} s.
Proof.
  rewrite myCallback_run.
  destruct (Z.eqb_spec requestId 0); [discriminate|].
  destruct (processed _); [discriminate|].
  destruct (Z.eqb_spec (Batch.id (currentBatch s))
              (batchId (readContext (decryptionContexts s) requestId)));
    [|discriminate].
  destruct (Z.eqb_spec (hash (batchCiphertexts (currentBatch s)))
              (stateHash (readContext (decryptionContexts s) requestId)));
    [|discriminate].
  cbn [negb].
  destruct (FHE_checkSignatures _ _ _); [|discriminate].
  destruct (abiDecodeUint32Pair cleartexts) as [[c e']|]; [|discriminate].
  intros [= <- <-]. auto 10.
Qed.

(** A differing hash always rejects the callback; the rejection is
    [StateMismatch] when the three earlier checks pass. *)
Lemma myCallback_hash_mismatch (s : Storage) (requestId : uint256)
    (cleartexts proof : bytes) :
  hash (batchCiphertexts (currentBatch s))
  <> stateHash (readContext (decryptionContexts s) requestId) ->
  (exists e, callback requestId cleartexts proof s = Err e) /\
  (requestId <> 0 ->
   processed (readContext (decryptionContexts s) requestId) = false ->
   Batch.id (currentBatch s)
   = batchId (readContext (decryptionContexts s) requestId) ->
   callback requestId cleartexts proof s = Err StateMismatch).
Proof.
  intros Hne. rewrite myCallback_run.
  destruct (Z.eqb_spec requestId 0); [split; [eauto | contradiction]|].
  destruct (processed _); [split; [eauto | discriminate]|].
  destruct (Z.eqb_spec (Batch.id (currentBatch s))
              (batchId (readContext (decryptionContexts s) requestId)));
    [|split; [cbn; eauto | contradiction]].
  destruct (Z.eqb_spec (hash (batchCiphertexts (currentBatch s)))
              (stateHash (readContext (decryptionContexts s) requestId)));
    [contradiction|].
  cbn. eauto.
Qed.

(** A request that returns has stored the context [requested] describes. *)
Lemma requestBatchDecryption_Ok (s s1 : Storage) (sender : address)
    (now requestId : uint256) (out : list Effect) :
  request sender now requestId s = Ok (tt, s1, out) ->
  s1 = requested this keccak256 sender now requestId s /\
  out = [OracleRequest (batchCiphertexts (currentBatch s));
         Emit (DecryptionRequested requestId (Batch.id (currentBatch s)))].
Proof.
  rewrite requestBatchDecryption_run.
  repeat (case_match; try discriminate).
  intros [= <- <-]. auto.
Qed.

(** C1. A decryption request that returns has stored, under its request
    id, [stateHash = keccak256(abi.encode([aggregateCongestion,
    aggregateEco], address(this)))] over the handles of the batch at that
    time. From then on, in every storage that still holds this context, a
    callback for the request recomputes the hash over the handles the
    batch has now, and whenever that hash differs from the stored one the
    callback is rejected: with [StateMismatch] when it gets to the
    comparison (a nonzero request id and the batch id of the request; the
    context is unprocessed), and by one of the earlier checks otherwise.
    With a hash that tells any two handle lists apart, every change of the
    aggregates between request and callback is thus rejected. *)
Theorem stateHash_binds_request_to_aggregates (s s1 : Storage) (sender : address)
    (now requestId : uint256) (out : list Effect) :
  request sender now requestId s = Ok (tt, s1, out) ->
  readContext (decryptionContexts s1) requestId
  = {| batchId := Batch.id (currentBatch s);
       stateHash := keccak256 [Batch.totalEncryptedCongestionScore (currentBatch s);
                               Batch.totalEncryptedEcoScore (currentBatch s)] this;
       processed := false |} /\
  (forall (s2 : Storage) (cleartexts proof : bytes),
     readContext (decryptionContexts s2) requestId
     = readContext (decryptionContexts s1) requestId ->
     hash (batchCiphertexts (currentBatch s2))
     <> hash (batchCiphertexts (currentBatch s)) ->
     (exists e, callback requestId cleartexts proof s2 = Err e) /\
     commit (callback requestId cleartexts proof) s2 = s2 /\
     (requestId <> 0 ->
      Batch.id (currentBatch s2) = Batch.id (currentBatch s) ->
      callback requestId cleartexts proof s2 = Err StateMismatch)) /\
  ((forall cts cts' : list bytes32,
      keccak256 cts this = keccak256 cts' this -> cts = cts') ->
   forall (s2 : Storage) (cleartexts proof : bytes),
     readContext (decryptionContexts s2) requestId
     = readContext (decryptionContexts s1) requestId ->
     batchCiphertexts (currentBatch s2) <> batchCiphertexts (currentBatch s) ->
     exists e, callback requestId cleartexts proof s2 = Err e).
Proof.
  intros Hreq. apply requestBatchDecryption_Ok in Hreq as [-> ->].
  pose proof (readContext_requested this keccak256 s sender now requestId) as Hctx.
  split; [exact Hctx|].
  assert (Hmis : forall (s2 : Storage) (cleartexts proof : bytes),
    readContext (decryptionContexts s2) requestId
    = readContext (decryptionContexts
                     (requested this keccak256 sender now requestId s)) requestId ->
    hash (batchCiphertexts (currentBatch s2))
    <> hash (batchCiphertexts (currentBatch s)) ->
    (exists e, callback requestId cleartexts proof s2 = Err e) /\
    commit (callback requestId cleartexts proof) s2 = s2 /\
    (requestId <> 0 ->
     Batch.id (currentBatch s2) = Batch.id (currentBatch s) ->
     callback requestId cleartexts proof s2 = Err StateMismatch)).
  { intros s2 cleartexts proof Hsame Hne.
    rewrite Hctx in Hsame.
    destruct (myCallback_hash_mismatch s2 requestId cleartexts proof)
      as [[e He] Hstate].
    { rewrite Hsame. exact Hne. }
    split_and!.
    - eauto.
    - unfold commit. rewrite He. reflexivity.
    - intros Hrid Hid. apply Hstate; [exact Hrid | | ];
        rewrite Hsame; [reflexivity | exact Hid]. }
  split; [exact Hmis|].
  intros Hinj s2 cleartexts proof Hsame Hne.
  apply Hmis; [exact Hsame|].
  unfold _hashCiphertexts. intros Heq. apply Hne, Hinj, Heq.
Qed.

(** Reading a context after one was stored. *)
Lemma readContext_set_decryptionContext (s : Storage) (k k' : uint256)
    (ctx : DecryptionContext) :
  readContext (decryptionContexts (set_decryptionContext k ctx s)) k'
  = if decide (k = k') then ctx else readContext (decryptionContexts s) k'.
Proof.
  unfold readContext. simpl. rewrite lookup_insert.
  destruct (decide (k = k')); reflexivity.
Qed.

(** Only a decryption request and a callback write to the contexts. *)
Lemma dispatch_decryptionContexts (tx : Tx) (s s1 : Storage) (out : list Effect) :
  call tx s = Ok (tt, s1, out) ->
  match txCall tx with
  | RequestBatchDecryption requestId =>
      s1 = requested this keccak256 (txSender tx) (txTimestamp tx) requestId s
  | MyCallback requestId _ _ =>
      s1 = set_decryptionContext requestId
             {| batchId := batchId (readContext (decryptionContexts s) requestId);
                stateHash := stateHash (readContext (decryptionContexts s) requestId);
                processed := true |} s
  | _ => decryptionContexts s1 = decryptionContexts s
  end.
Proof.
  destruct tx as [sender now c]. unfold dispatch. cbn [txSender txTimestamp txCall].
  destruct c as [newOwner|p|p| | |n| | |c e|requestId|requestId cleartexts proof].
  10: { intros H. apply requestBatchDecryption_Ok in H as [-> _]. reflexivity. }
  10: { intros H. apply myCallback_Ok in H. tauto. }
  all: unfold transferOwnership, addProvider, removeProvider, pause, unpause,
         setCooldownSeconds, openBatch, closeBatch, submitData;
       rewrite ?onlyProvider_run, ?onlyOwner_run, ?whenNotPaused_run,
         ?submissionRateLimited_run;
       unfold revertIf, checkedAdd, bind, get, modify, emit, ret, revert;
       intros H; repeat (case_match; simplify_eq/=; try done).
Qed.

(** Once set, the [processed] flag of a request survives every transaction
    except a new decryption request to which the oracle side gives the same
    request id again (which stores a fresh context in its place). *)
Lemma execute_keeps_processed (tx : Tx) (s : Storage) (requestId : uint256) :
  txCall tx <> RequestBatchDecryption requestId ->
  processed (readContext (decryptionContexts s) requestId) = true ->
  processed (readContext (decryptionContexts (exec tx s)) requestId) = true.
Proof.
  intros Hne Hp. unfold execute, commit.
  destruct (call tx s) as [[[[] s1] out]|e] eqn:Hcall; [|exact Hp].
  apply dispatch_decryptionContexts in Hcall.
  destruct (txCall tx) as [ | | | | | | | | |rid|rid cleartexts proof];
    try (rewrite Hcall; exact Hp).
  - subst s1. unfold requested, readContext. simpl.
    rewrite lookup_insert_ne by congruence. exact Hp.
  - subst s1. rewrite readContext_set_decryptionContext.
    destruct (decide (rid = requestId)); [reflexivity | exact Hp].
Qed.

Lemma executeAll_keeps_processed (txs : list Tx) (s : Storage)
    (requestId : uint256) :
  Forall (fun tx => txCall tx <> RequestBatchDecryption requestId) txs ->
  processed (readContext (decryptionContexts s) requestId) = true ->
  processed (readContext (decryptionContexts (execAll txs s)) requestId) = true.
Proof.
  intros Hall. revert s.
  induction Hall as [|tx txs Htx _ IH]; intros s Hp; [exact Hp|].
  cbn [executeAll fold_left]. apply IH.
  apply execute_keeps_processed; assumption.
Qed.

(** A callback for a processed request is a replay. *)
Lemma myCallback_replay (s : Storage) (requestId : uint256)
    (cleartexts proof : bytes) :
  requestId <> 0 ->
  processed (readContext (decryptionContexts s) requestId) = true ->
  callback requestId cleartexts proof s = Err ReplayAttempt.
Proof.
  intros Hrid Hp. rewrite myCallback_run, Hp.
  destruct (Z.eqb_spec requestId 0); [contradiction | reflexivity].
Qed.

(** C2. The [processed] flag of a request goes from [false] to [true]
    exactly once. A callback that returns found the flag [false] and
    leaves it [true], changing nothing else in the storage. From then on
    the flag stays [true] through every sequence of transactions, by any
    callers, that stores no new context under this request id, and every
    further callback with the same request id, whatever its cleartexts and
    proof, reverts with [ReplayAttempt] and so leaves the storage as it
    was. *)
Theorem processed_exactly_once (s s1 : Storage) (requestId : uint256)
    (cleartexts proof : bytes) (out : list Effect) :
  callback requestId cleartexts proof s = Ok (tt, s1, out) ->
  processed (readContext (decryptionContexts s) requestId) = false /\
  processed (readContext (decryptionContexts s1) requestId) = true /\
  s1 = set_decryptionContext requestId
         {| batchId := batchId (readContext (decryptionContexts s) requestId);
            stateHash := stateHash (readContext (decryptionContexts s) requestId);
            processed := true |} s /\
  (forall cleartexts' proof' : bytes,
     callback requestId cleartexts' proof' s1 = Err ReplayAttempt) /\
  (forall txs : list Tx,
     Forall (fun tx => txCall tx <> RequestBatchDecryption requestId) txs ->
     processed (readContext (decryptionContexts (execAll txs s1)) requestId) = true /\
     forall (caller : address) (now : uint256) (cleartexts' proof' : bytes),
       callback requestId cleartexts' proof' (execAll txs s1) = Err ReplayAttempt /\
       exec (mkTx caller now (MyCallback requestId cleartexts' proof')) (execAll txs s1)
       = execAll txs s1).
Proof.
  intros Hcb. apply myCallback_Ok in Hcb as (Hrid & Hfresh & _ & _ & _ & Hs1).
  assert (Hdone : processed (readContext (decryptionContexts s1) requestId) = true).
  { rewrite Hs1, readContext_set_decryptionContext.
    destruct (decide (requestId = requestId)); [reflexivity | contradiction]. }
  split_and!; try assumption.
  - intros cleartexts' proof'. apply myCallback_replay; assumption.
  - intros txs Hall.
    pose proof (executeAll_keeps_processed txs s1 requestId Hall Hdone) as Hkept.
    split; [exact Hkept|].
    intros caller now cleartexts' proof'.
    pose proof (myCallback_replay (execAll txs s1) requestId cleartexts' proof'
                  Hrid Hkept) as Hreplay.
    split; [exact Hreplay|].
    unfold execute, commit, dispatch. cbn [txCall]. rewrite Hreplay. reflexivity.
Qed.

(** The batch id never decreases, so it is at least 1 in every storage the
    contract can be in. *)
Lemma dispatch_batch_id (tx : Tx) (s s1 : Storage) (out : list Effect) :
  call tx s = Ok (tt, s1, out) ->
  Batch.id (currentBatch s) <= Batch.id (currentBatch s1).
Proof.
  destruct tx as [sender now c]. unfold dispatch. cbn [txSender txTimestamp txCall].
  destruct c as [newOwner|p|p| | |n| | |c e|requestId|requestId cleartexts proof].
  10: { intros H. apply requestBatchDecryption_Ok in H as [-> _]. reflexivity. }
  10: { intros H. apply myCallback_Ok in H as (_ & _ & _ & _ & _ & ->). reflexivity. }
  all: unfold transferOwnership, addProvider, removeProvider, pause, unpause,
         setCooldownSeconds, openBatch, closeBatch, submitData;
       rewrite ?onlyProvider_run, ?onlyOwner_run, ?whenNotPaused_run,
         ?submissionRateLimited_run;
       unfold revertIf, checkedAdd, bind, get, modify, emit, ret, revert;
       intros H; repeat (case_match; simplify_eq/=; try done); lia.
Qed.

Lemma reachable_batch_id (s : Storage) :
  reachable this keccak256 FHE_add FHE_isInitialized FHE_checkSignatures s ->
  1 <= Batch.id (currentBatch s).
Proof.
  induction 1 as [deployer|tx s Hs IH]; [simpl; lia|].
  unfold execute, commit.
  destruct (call tx s) as [[[[] s1] out]|e] eqn:Hcall; [|exact IH].
  apply dispatch_batch_id in Hcall. lia.
Qed.

(** C3, as the code has it. [myCallback] does not look up whether a context
    exists: a request id that was never issued reads as the zero context.
    In every storage the contract can be in, a callback with such a request
    id is rejected and leaves the storage as it was; the rejection is the
    reason string [Invalid request ID] when the request id is 0, and
    [InvalidBatchId] otherwise, the zero [batchId] of the absent context
    never being the id of the current batch. *)
Theorem myCallback_unknown_request (s : Storage) (requestId : uint256)
    (cleartexts proof : bytes) :
  reachable this keccak256 FHE_add FHE_isInitialized FHE_checkSignatures s ->
  decryptionContexts s !! requestId = None ->
  callback requestId cleartexts proof s
  = Err (if requestId =? 0 then ErrorString "Invalid request ID"
         else InvalidBatchId) /\
  commit (callback requestId cleartexts proof) s = s.
Proof.
  intros Hreach Hnone. apply reachable_batch_id in Hreach.
  assert (Hrun : callback requestId cleartexts proof s
                 = Err (if requestId =? 0 then ErrorString "Invalid request ID"
                        else InvalidBatchId)).
  { rewrite myCallback_run. unfold readContext. rewrite Hnone. cbn.
    destruct (requestId =? 0); [reflexivity|].
    destruct (Z.eqb_spec (Batch.id (currentBatch s)) 0); [lia | reflexivity]. }
  split; [exact Hrun|]. unfold commit. rewrite Hrun. reflexivity.
Qed.

(** C4, as the code has it. [myCallback] is [public] and never reads
    [msg.sender]: the outcome of a callback transaction is the same for
    every caller (and every block time). It returns exactly when the
    request id is not 0, the context stored under it is unprocessed and
    carries the id and the state hash of the current batch, the proof
    verifies for the request id and the cleartexts, and the cleartexts
    decode as two [uint32]; when those checks pass but the proof does not
    verify, it reverts with [InvalidProof]. What ties a callback to the
    oracle is the verification of the proof, not the identity of the
    caller. *)
Theorem myCallback_any_caller (s : Storage) (caller caller' : address)
    (now now' requestId : uint256) (cleartexts proof : bytes) :
  call (mkTx caller now (MyCallback requestId cleartexts proof)) s
  = call (mkTx caller' now' (MyCallback requestId cleartexts proof)) s /\
  ((exists s1 out,
      call (mkTx caller now (MyCallback requestId cleartexts proof)) s
      = Ok (tt, s1, out))
   <-> requestId <> 0 /\
       processed (readContext (decryptionContexts s) requestId) = false /\
       Batch.id (currentBatch s)
       = batchId (readContext (decryptionContexts s) requestId) /\
       hash (batchCiphertexts (currentBatch s))
       = stateHash (readContext (decryptionContexts s) requestId) /\
       FHE_checkSignatures requestId cleartexts proof = true /\
       is_Some (abiDecodeUint32Pair cleartexts)) /\
  (requestId <> 0 ->
   processed (readContext (decryptionContexts s) requestId) = false ->
   Batch.id (currentBatch s)
   = batchId (readContext (decryptionContexts s) requestId) ->
   hash (batchCiphertexts (currentBatch s))
   = stateHash (readContext (decryptionContexts s) requestId) ->
   FHE_checkSignatures requestId cleartexts proof = false ->
   call (mkTx caller now (MyCallback requestId cleartexts proof)) s
   = Err InvalidProof).
Proof.
  unfold dispatch. cbn [txSender txTimestamp txCall].
  split; [reflexivity|]. rewrite myCallback_run. split.
  - destruct (Z.eqb_spec requestId 0) as [Hz|Hz].
    { split; [intros (? & ? & [=]) | tauto]. }
    destruct (processed _).
    { split; [intros (? & ? & [=]) | intros (_ & [=] & _)]. }
    destruct (Z.eqb_spec (Batch.id (currentBatch s))
                (batchId (readContext (decryptionContexts s) requestId)));
      [|split; [intros (? & ? & [=]) | tauto]].
    destruct (Z.eqb_spec (hash (batchCiphertexts (currentBatch s)))
                (stateHash (readContext (decryptionContexts s) requestId)));
      [|split; [intros (? & ? & [=]) | tauto]].
    cbn [negb].
    destruct (FHE_checkSignatures _ _ _).
    2: { split; [intros (? & ? & [=]) | intros (_ & _ & _ & _ & [=] & _)]. }
    destruct (abiDecodeUint32Pair cleartexts) as [[c e']|].
    + split; [intros _; split_and!; eauto | eauto].
    + split; [intros (? & ? & [=]) | intros (_ & _ & _ & _ & _ & [? [=]])].
  - intros Hrid Hp Hid Hh Hsig. rewrite Hp, Hsig, <- Hid, <- Hh, !Z.eqb_refl.
    destruct (Z.eqb_spec requestId 0); [contradiction | reflexivity].
Qed.

End Callback.

(** ** The scenario of the specification, run on the instance *)

(** The request of the scenario, and a callback after the congestion
    aggregate was changed from 10 to 15 behind the request's back. *)
Lemma stateHash_binds_request_to_aggregates_witness :
  myCallback Instance.this Instance.keccak256 Instance.FHE_checkSignatures
    7 Instance.cleartexts_10_6 [Byte.x01]
    (updBatch (batch_set_congestion 15) Instance.pendingRequest)
  = Err StateMismatch.
Proof.
  apply (stateHash_binds_request_to_aggregates Instance.this Instance.keccak256
           Instance.FHE_checkSignatures Instance.closedBatch Instance.pendingRequest
           Instance.admin 300 7
           [OracleRequest [10; 6]; Emit (DecryptionRequested 7 2)]).
  - reflexivity.
  - reflexivity.
  - vm_compute. discriminate.
  - discriminate.
  - reflexivity.
Defined.

(** The callback of the scenario, sent a second time. *)
Lemma processed_exactly_once_witness :
  myCallback Instance.this Instance.keccak256 Instance.FHE_checkSignatures
    7 Instance.cleartexts_10_6 [Byte.x01]
    (Instance.run
       (mkTx Instance.mallory 400 (MyCallback 7 Instance.cleartexts_10_6 [Byte.x01]))
       Instance.pendingRequest)
  = Err ReplayAttempt.
Proof.
  destruct (processed_exactly_once Instance.this Instance.keccak256 Instance.FHE_add
              Instance.FHE_isInitialized Instance.FHE_checkSignatures
              Instance.pendingRequest
              (Instance.run
                 (mkTx Instance.mallory 400
                    (MyCallback 7 Instance.cleartexts_10_6 [Byte.x01]))
                 Instance.pendingRequest)
              7 Instance.cleartexts_10_6 [Byte.x01]
              [Emit (DecryptionCompleted 7 2 10 6)])
    as (_ & _ & _ & Hreplay & _).
  - vm_compute. reflexivity.
  - exact (Hreplay Instance.cleartexts_10_6 [Byte.x01]).
Defined.

(** Request ids 9 and 0 were never issued in the scenario. Their callbacks
    are rejected, with two different errors, neither of them an error for
    unknown requests: [InvalidBatchId] is also what the issued request 7
    gets once the batch was re-opened. *)
Lemma unknown_request_is_InvalidBatchId :
  decryptionContexts Instance.pendingRequest !! 9 = None /\
  decryptionContexts Instance.pendingRequest !! 0 = None /\
  myCallback Instance.this Instance.keccak256 Instance.FHE_checkSignatures
    9 Instance.cleartexts_10_6 [Byte.x01] Instance.pendingRequest
  = Err InvalidBatchId /\
  myCallback Instance.this Instance.keccak256 Instance.FHE_checkSignatures
    0 Instance.cleartexts_10_6 [Byte.x01] Instance.pendingRequest
  = Err (ErrorString "Invalid request ID") /\
  myCallback Instance.this Instance.keccak256 Instance.FHE_checkSignatures
    7 Instance.cleartexts_10_6 [Byte.x01]
    (Instance.run (mkTx Instance.admin 400 OpenBatch) Instance.pendingRequest)
  = Err InvalidBatchId /\
  ~ (exists unknownRequest : Error,
       forall requestId : uint256,
         decryptionContexts Instance.pendingRequest !! requestId = None ->
         myCallback Instance.this Instance.keccak256 Instance.FHE_checkSignatures
           requestId Instance.cleartexts_10_6 [Byte.x01] Instance.pendingRequest
         = Err unknownRequest).
Proof.
  split_and!; try reflexivity.
  intros [e He].
  pose proof (He 9 eq_refl) as H9. pose proof (He 0 eq_refl) as H0.
  vm_compute in H9. vm_compute in H0. congruence.
Qed.

Lemma myCallback_unknown_request_witness :
  myCallback Instance.this Instance.keccak256 Instance.FHE_checkSignatures
    9 Instance.cleartexts_10_6 [Byte.x01] Instance.pendingRequest
  = Err InvalidBatchId.
Proof.
  apply (myCallback_unknown_request Instance.this Instance.keccak256
           Instance.FHE_add Instance.FHE_isInitialized Instance.FHE_checkSignatures
           Instance.pendingRequest 9 Instance.cleartexts_10_6 [Byte.x01]).
  - unfold Instance.pendingRequest, Instance.run, Instance.closedBatch, executeAll.
    cbn [fold_left]. repeat apply reachable_execute. apply reachable_constructor.
  - reflexivity.
Defined.

(** The callback of the scenario goes through whoever sends it: no address
    is such that every other caller is rejected. *)
Lemma myCallback_accepts_any_caller :
  ~ (exists decryptionOracle : address,
       forall caller : address,
         caller <> decryptionOracle ->
         exists e,
           Instance.call
             (mkTx caller 400 (MyCallback 7 Instance.cleartexts_10_6 [Byte.x01]))
             Instance.pendingRequest
           = Err e).
Proof.
  intros [o Ho].
  destruct (Z.eq_dec o Instance.mallory) as [->|Hne].
  - destruct (Ho Instance.alice) as [e He]; [discriminate|].
    vm_compute in He. discriminate He.
  - destruct (Ho Instance.mallory) as [e He]; [congruence|].
    vm_compute in He. discriminate He.
Qed.

(** ** Rate limiter: the cooldown window *)

Section Cooldown.

Variable this : address.
Variable keccak256 : list bytes32 -> address -> bytes32.
Variable FHE_add : uint256 -> uint256 -> uint256.
Variable FHE_isInitialized : uint256 -> bool.
Variable FHE_checkSignatures : uint256 -> bytes -> bytes -> bool.

Local Abbreviation request := (requestBatchDecryption this keccak256).
Local Abbreviation submit := (submitData FHE_add FHE_isInitialized).
Local Abbreviation exec :=
  (execute this keccak256 FHE_add FHE_isInitialized FHE_checkSignatures).
Local Abbreviation call :=
  (dispatch this keccak256 FHE_add FHE_isInitialized FHE_checkSignatures).

(** [submitData], below its three modifiers. *)
Lemma submitData_run (s : Storage) (sender : address) (now c e : uint256) :
  submit sender now c e s
  = if readFlag (isProvider s) sender then
      if paused s then Err Paused
      else if readUint (lastSubmissionTime s) sender + cooldownSeconds s
              <=? MAX_UINT256
      then if now <? readUint (lastSubmissionTime s) sender + cooldownSeconds s
           then Err CooldownActive
           else if negb (Batch.isOpen (currentBatch s)) then Err BatchNotOpen
           else if negb (FHE_isInitialized c)
           then Err (ErrorString "Congestion score not initialized")
           else if negb (FHE_isInitialized e)
           then Err (ErrorString "Eco score not initialized")
           else if Batch.submissionCount (currentBatch s) + 1 <=? MAX_UINT256
           then Ok (tt,
                    set_lastSubmissionTime sender now
                      (set_currentBatch
                         (Batch.mk (Batch.id (currentBatch s)) true
                            (FHE_add (Batch.totalEncryptedCongestionScore
                                        (currentBatch s)) c)
                            (FHE_add (Batch.totalEncryptedEcoScore
                                        (currentBatch s)) e)
                            (Batch.submissionCount (currentBatch s) + 1)) s),
                    [Emit (DataSubmitted sender (Batch.id (currentBatch s)))])
           else Err (Panic 17)
      else Err (Panic 17)
    else Err NotProvider.
Proof.
  unfold submitData.
  rewrite onlyProvider_run, whenNotPaused_run, submissionRateLimited_run.
  destruct (readFlag (isProvider s) sender); [|reflexivity].
  destruct (paused s); [reflexivity|].
  destruct (_ <=? MAX_UINT256); [|reflexivity].
  destruct (now <? _); [reflexivity|].
  rewrite bind_get.
  destruct (Batch.isOpen (currentBatch s)) eqn:Hopen; [|reflexivity].
  rewrite bind_revertIf_false.
  destruct (FHE_isInitialized c); [|reflexivity].
  rewrite bind_revertIf_false.
  destruct (FHE_isInitialized e); [|reflexivity].
  rewrite bind_revertIf_false.
  unfold checkedAdd, bind, get, modify, emit, ret, revert.
  cbn -[Z.leb Z.add MAX_UINT256].
  destruct (_ <=? MAX_UINT256); [|reflexivity].
  unfold updBatch, batch_set_submissionCount, batch_set_eco, batch_set_congestion,
    set_lastSubmissionTime, set_currentBatch.
  cbn -[Z.add]. rewrite Hopen. reflexivity.
Qed.

(** Only a submission that returns writes to [lastSubmissionTime], and it
    writes the block time under the sender. *)
Lemma dispatch_lastSubmissionTime (tx : Tx) (s s1 : Storage) (out : list Effect) :
  call tx s = Ok (tt, s1, out) ->
  lastSubmissionTime s1
  = match txCall tx with
    | SubmitData _ _ => <[txSender tx := txTimestamp tx]> (lastSubmissionTime s)
    | _ => lastSubmissionTime s
    end.
Proof.
  destruct tx as [sender now c]. unfold dispatch. cbn [txSender txTimestamp txCall].
  destruct c as [newOwner|p|p| | |n| | |c e|requestId|requestId cleartexts proof].
  9: { rewrite submitData_run. intros H.
       repeat (case_match; simplify_eq/=; try done). }
  9: { intros H. apply requestBatchDecryption_Ok in H as [-> _]. reflexivity. }
  9: { intros H. apply myCallback_Ok in H as (_ & _ & _ & _ & _ & ->). reflexivity. }
  all: unfold transferOwnership, addProvider, removeProvider, pause, unpause,
         setCooldownSeconds, openBatch, closeBatch;
       rewrite ?onlyOwner_run, ?whenNotPaused_run;
       unfold revertIf, checkedAdd, bind, get, modify, emit, ret, revert;
       intros H; repeat (case_match; simplify_eq/=; try done).
Qed.

Lemma readUint_insert (m : gmap Z Z) (k k' v : Z) :
  readUint (<[k := v]> m) k' = if decide (k = k') then v else readUint m k'.
Proof.
  unfold readUint. rewrite lookup_insert.
  destruct (decide (k = k')); reflexivity.
Qed.

(** A submission and a decryption request that return: what they checked
    and the storage they leave. *)
Lemma submitData_Ok (s s1 : Storage) (sender : address) (now c e : uint256)
    (out : list Effect) :
  submit sender now c e s = Ok (tt, s1, out) ->
  readFlag (isProvider s) sender = true /\ paused s = false /\
  s1 = set_lastSubmissionTime sender now
         (set_currentBatch
            (Batch.mk (Batch.id (currentBatch s)) true
               (FHE_add (Batch.totalEncryptedCongestionScore (currentBatch s)) c)
               (FHE_add (Batch.totalEncryptedEcoScore (currentBatch s)) e)
               (Batch.submissionCount (currentBatch s) + 1)) s).
Proof.
  rewrite submitData_run.
  destruct (readFlag (isProvider s) sender); [|discriminate].
  destruct (paused s); [discriminate|].
  repeat (case_match; try discriminate).
  intros [= <- <-]. auto.
Qed.

Lemma requestBatchDecryption_Ok_guards (s s1 : Storage) (sender : address)
    (now requestId : uint256) (out : list Effect) :
  request sender now requestId s = Ok (tt, s1, out) ->
  sender = owner s /\ paused s = false /\
  Batch.isOpen (currentBatch s) = false /\
  Batch.submissionCount (currentBatch s) <> 0 /\
  s1 = requested this keccak256 sender now requestId s.
Proof.
  rewrite requestBatchDecryption_run.
  destruct (Z.eqb_spec sender (owner s)); [|discriminate].
  destruct (paused s); [discriminate|].
  destruct (_ <=? MAX_UINT256); [|discriminate].
  destruct (now <? _); [discriminate|].
  destruct (Batch.isOpen (currentBatch s)); [discriminate|].
  destruct (Z.eqb_spec (Batch.submissionCount (currentBatch s)) 0); [discriminate|].
  intros [= <- <-]. auto.
Qed.

(** C7, as the code has it. The time of an admitted action is recorded per
    class: a submission that returns at block time [now] leaves [now] as the
    recorded submission time of its sender, and a decryption request that
    returns leaves [now] as the recorded decryption-request time of its
    sender. For a principal whose recorded time of a class is [t], with
    [t + cooldownSeconds] still a [uint256], the rate limiter of that class
    rejects with [CooldownActive] at every time before [t + cooldownSeconds]
    and lets the guarded body run at exactly that time and at every later
    one (when the sum leaves the [uint256] range, the checked addition
    panics instead). So a submission of an authorised principal and a
    decryption request of the owner, on the unpaused contract, revert with
    [CooldownActive] before that time, in particular right after the
    admitted action, and go through at that time when the batch allows it.
    The submission time is recorded when a submission returns and only
    then: a rejected submission leaves the storage as it was, and no other
    transaction changes the recorded submission time of any principal. *)
Theorem cooldown_window (s : Storage) (p : address) (t now : uint256) :
  (readUint (lastSubmissionTime s) p = t ->
   t + cooldownSeconds s <= MAX_UINT256 ->
   (forall (A : Type) (body : M A),
      (now < t + cooldownSeconds s ->
         submissionRateLimited p now body s = Err CooldownActive) /\
      submissionRateLimited p (t + cooldownSeconds s) body s = body s /\
      (t + cooldownSeconds s <= now ->
         submissionRateLimited p now body s = body s)) /\
   (forall c e : uint256,
      readFlag (isProvider s) p = true -> paused s = false ->
      (now < t + cooldownSeconds s -> submit p now c e s = Err CooldownActive) /\
      (Batch.isOpen (currentBatch s) = true ->
       FHE_isInitialized c = true -> FHE_isInitialized e = true ->
       Batch.submissionCount (currentBatch s) + 1 <= MAX_UINT256 ->
       exists s1 out,
         submit p (t + cooldownSeconds s) c e s = Ok (tt, s1, out) /\
         readUint (lastSubmissionTime s1) p = t + cooldownSeconds s))) /\
  (readUint (lastDecryptionRequestTime s) p = t ->
   t + cooldownSeconds s <= MAX_UINT256 ->
   (forall (A : Type) (body : M A),
      (now < t + cooldownSeconds s ->
         decryptionRateLimited p now body s = Err CooldownActive) /\
      (t + cooldownSeconds s <= now ->
         decryptionRateLimited p now body s
         = match body s with
           | Ok (r, s', out) => Ok (r, set_lastDecryptionRequestTime p now s', out)
           | Err e => Err e
           end)) /\
   (forall requestId : uint256,
      p = owner s -> paused s = false ->
      (now < t + cooldownSeconds s ->
         request p now requestId s = Err CooldownActive) /\
      (Batch.isOpen (currentBatch s) = false ->
       Batch.submissionCount (currentBatch s) <> 0 ->
       exists s1 out,
         request p (t + cooldownSeconds s) requestId s = Ok (tt, s1, out) /\
         readUint (lastDecryptionRequestTime s1) p = t + cooldownSeconds s))) /\
  (forall (c e : uint256) (s1 : Storage) (out : list Effect),
     submit p now c e s = Ok (tt, s1, out) ->
     readUint (lastSubmissionTime s1) p = now /\
     cooldownSeconds s1 = cooldownSeconds s /\
     (now + cooldownSeconds s <= MAX_UINT256 ->
      forall now' c' e' : uint256,
        now' < now + cooldownSeconds s ->
        submit p now' c' e' s1 = Err CooldownActive)) /\
  (forall (requestId : uint256) (s1 : Storage) (out : list Effect),
     request p now requestId s = Ok (tt, s1, out) ->
     readUint (lastDecryptionRequestTime s1) p = now /\
     cooldownSeconds s1 = cooldownSeconds s /\
     (now + cooldownSeconds s <= MAX_UINT256 ->
      forall now' requestId' : uint256,
        now' < now + cooldownSeconds s ->
        request p now' requestId' s1 = Err CooldownActive)) /\
  (forall (c e : uint256) (err : Error),
     submit p now c e s = Err err ->
     exec (mkTx p now (SubmitData c e)) s = s) /\
  (forall (tx : Tx) (q : address),
     readUint (lastSubmissionTime (exec tx s)) q
     <> readUint (lastSubmissionTime s) q ->
     exists c e s1 out,
       txCall tx = SubmitData c e /\ txSender tx = q /\
       call tx s = Ok (tt, s1, out) /\
       readUint (lastSubmissionTime (exec tx s)) q = txTimestamp tx).
Proof.
  split_and!.
  - intros Ht Hfit. split.
    + intros A body. rewrite !submissionRateLimited_run, Ht.
      destruct (Z.leb_spec (t + cooldownSeconds s) MAX_UINT256); [|lia].
      split_and!.
      * intros Hlt.
        destruct (Z.ltb_spec now (t + cooldownSeconds s)); [reflexivity | lia].
      * rewrite Z.ltb_irrefl. reflexivity.
      * intros Hge.
        destruct (Z.ltb_spec now (t + cooldownSeconds s)); [lia | reflexivity].
    + intros c e Hprov Hp. rewrite !submitData_run, Hprov, Hp, Ht.
      destruct (Z.leb_spec (t + cooldownSeconds s) MAX_UINT256); [|lia].
      split.
      * intros Hlt.
        destruct (Z.ltb_spec now (t + cooldownSeconds s)); [reflexivity | lia].
      * intros Hopen Hc He Hcount. rewrite Z.ltb_irrefl, Hopen, Hc, He. cbn [negb].
        destruct (Z.leb_spec (Batch.submissionCount (currentBatch s) + 1) MAX_UINT256);
          [|lia].
        eexists _, _. split; [reflexivity|].
        cbn. rewrite readUint_insert.
        destruct (decide (p = p)); [reflexivity | contradiction].
  - intros Ht Hfit. split.
    + intros A body. rewrite !decryptionRateLimited_run, Ht.
      destruct (Z.leb_spec (t + cooldownSeconds s) MAX_UINT256); [|lia].
      split.
      * intros Hlt.
        destruct (Z.ltb_spec now (t + cooldownSeconds s)); [reflexivity | lia].
      * intros Hge.
        destruct (Z.ltb_spec now (t + cooldownSeconds s)); [lia | reflexivity].
    + intros requestId Ho Hp. subst p.
      rewrite !requestBatchDecryption_run, Hp, Ht, Z.eqb_refl.
      destruct (Z.leb_spec (t + cooldownSeconds s) MAX_UINT256); [|lia].
      split.
      * intros Hlt.
        destruct (Z.ltb_spec now (t + cooldownSeconds s)); [reflexivity | lia].
      * intros Hclosed Hcount. rewrite Z.ltb_irrefl, Hclosed.
        destruct (Z.eqb_spec (Batch.submissionCount (currentBatch s)) 0);
          [contradiction|].
        eexists _, _. split; [reflexivity|].
        cbn. rewrite readUint_insert.
        destruct (decide (owner s = owner s)); [reflexivity | contradiction].
  - intros c e s1 out Hok.
    apply submitData_Ok in Hok as (Hprov & Hp & ->).
    split_and!.
    + cbn. rewrite readUint_insert.
      destruct (decide (p = p)); [reflexivity | contradiction].
    + reflexivity.
    + intros Hfit now' c' e' Hlt. rewrite submitData_run. cbn.
      rewrite Hprov, Hp, readUint_insert.
      destruct (decide (p = p)); [|contradiction].
      destruct (Z.leb_spec (now + cooldownSeconds s) MAX_UINT256); [|lia].
      destruct (Z.ltb_spec now' (now + cooldownSeconds s)); [reflexivity | lia].
  - intros requestId s1 out Hok.
    apply requestBatchDecryption_Ok_guards in Hok as (Ho & Hp & _ & _ & ->).
    subst p. split_and!.
    + cbn. rewrite readUint_insert.
      destruct (decide (owner s = owner s)); [reflexivity | contradiction].
    + reflexivity.
    + intros Hfit now' requestId' Hlt. rewrite requestBatchDecryption_run. cbn.
      rewrite Hp, readUint_insert, Z.eqb_refl.
      destruct (decide (owner s = owner s)); [|contradiction].
      destruct (Z.leb_spec (now + cooldownSeconds s) MAX_UINT256); [|lia].
      destruct (Z.ltb_spec now' (now + cooldownSeconds s)); [reflexivity | lia].
  - intros c e err Herr. unfold execute, commit, dispatch.
    cbn [txCall txSender txTimestamp]. rewrite Herr. reflexivity.
  - intros tx q Hchg. unfold execute, commit in Hchg |- *.
    destruct (call tx s) as [[[[] s1] out]|err] eqn:Hcall; [|contradiction].
    pose proof (dispatch_lastSubmissionTime tx s s1 out Hcall) as Hlast.
    destruct (txCall tx) as [ | | | | | | | |c e| | ] eqn:Hc;
      try (rewrite Hlast in Hchg; contradiction).
    rewrite Hlast, readUint_insert in Hchg |- *.
    destruct (decide (txSender tx = q)); [|contradiction].
    exists c, e, s1, out. auto.
Qed.

End Cooldown.

(** [alice] submitted at time 200 with the cooldown of 60 seconds: her next
    submission is rejected at 259 and admitted at 260; and the deployer's
    decryption request at time 300 is recorded, so that a second request at
    359 is rejected. *)
Lemma cooldown_window_witness :
  submitData Instance.FHE_add Instance.FHE_isInitialized Instance.alice 259 5 3
    Instance.firstSubmission
  = Err CooldownActive /\
  (exists s1 out,
     submitData Instance.FHE_add Instance.FHE_isInitialized Instance.alice 260 5 3
       Instance.firstSubmission
     = Ok (tt, s1, out) /\
     readUint (lastSubmissionTime s1) Instance.alice = 260) /\
  readUint (lastDecryptionRequestTime Instance.pendingRequest) Instance.admin = 300 /\
  requestBatchDecryption Instance.this Instance.keccak256 Instance.admin 359 8
    Instance.pendingRequest
  = Err CooldownActive.
Proof.
  split_and!.
  - destruct (cooldown_window Instance.this Instance.keccak256 Instance.FHE_add
                Instance.FHE_isInitialized Instance.FHE_checkSignatures
                Instance.firstSubmission Instance.alice 200 259)
      as ((_ & Hsubmit) & _); [vm_compute; reflexivity | apply Z.leb_le; vm_compute; reflexivity|].
    destruct (Hsubmit 5 3) as [Hreject _];
      [vm_compute; reflexivity | vm_compute; reflexivity|].
    apply Hreject. apply Z.ltb_lt. vm_compute. reflexivity.
  - destruct (cooldown_window Instance.this Instance.keccak256 Instance.FHE_add
                Instance.FHE_isInitialized Instance.FHE_checkSignatures
                Instance.firstSubmission Instance.alice 200 259)
      as ((_ & Hsubmit) & _); [vm_compute; reflexivity | apply Z.leb_le; vm_compute; reflexivity|].
    destruct (Hsubmit 5 3) as [_ Hadmit];
      [vm_compute; reflexivity | vm_compute; reflexivity|].
    apply Hadmit;
      [vm_compute; reflexivity | reflexivity | reflexivity
      | apply Z.leb_le; vm_compute; reflexivity].
  - destruct (cooldown_window Instance.this Instance.keccak256 Instance.FHE_add
                Instance.FHE_isInitialized Instance.FHE_checkSignatures
                Instance.closedBatch Instance.admin 0 300)
      as (_ & _ & _ & Hrequest & _).
    destruct (Hrequest 7 Instance.pendingRequest
                [OracleRequest [10; 6]; Emit (DecryptionRequested 7 2)])
      as (Hrecorded & _); [vm_compute; reflexivity | exact Hrecorded].
  - destruct (cooldown_window Instance.this Instance.keccak256 Instance.FHE_add
                Instance.FHE_isInitialized Instance.FHE_checkSignatures
                Instance.closedBatch Instance.admin 0 300)
      as (_ & _ & _ & Hrequest & _).
    destruct (Hrequest 7 Instance.pendingRequest
                [OracleRequest [10; 6]; Emit (DecryptionRequested 7 2)])
      as (_ & _ & Hnext); [vm_compute; reflexivity|].
    apply Hnext; [apply Z.leb_le; vm_compute; reflexivity
                 | apply Z.ltb_lt; vm_compute; reflexivity].
Defined.

(** The cooldown raised to the largest [uint256] after the submission of
    [alice] at time 200: at the time 1000000000, which is before 200 plus
    the cooldown, her submission is not rejected with [CooldownActive]; the
    checked addition of the rate limiter panics. *)
Lemma cooldown_overflow_is_not_CooldownActive :
  readUint (lastSubmissionTime Scenario.longestCooldown) Instance.alice = 200 /\
  readFlag (isProvider Scenario.longestCooldown) Instance.alice = true /\
  paused Scenario.longestCooldown = false /\
  1000000000 < 200 + cooldownSeconds Scenario.longestCooldown /\
  submitData Instance.FHE_add Instance.FHE_isInitialized Instance.alice
    1000000000 5 3 Scenario.longestCooldown
  = Err (Panic 17) /\
  submitData Instance.FHE_add Instance.FHE_isInitialized Instance.alice
    1000000000 5 3 Scenario.longestCooldown
  <> Err CooldownActive.
Proof.
  split_and!; try (vm_compute; reflexivity).
  vm_compute. discriminate.
Qed.

(** ** Kinds of failure *)

Lemma knownFailure_custom (e : Error) : isCustomError e = true -> knownFailure e.
Proof. intros H. left. exact H. Qed.

Lemma knownFailure_reason (reason : string) :
  In reason reasonStrings -> knownFailure (ErrorString reason).
Proof. intros H. right. left. eauto. Qed.

Lemma knownFailure_panic : knownFailure (Panic 17).
Proof. right. right. left. reflexivity. Qed.

Lemma knownFailure_empty : knownFailure RevertEmpty.
Proof. right. right. right. reflexivity. Qed.

(** Closing a goal [knownFailure e] for a concrete [e]. *)
Ltac known_failure :=
  first [ apply knownFailure_custom; reflexivity
        | apply knownFailure_panic
        | apply knownFailure_empty
        | apply knownFailure_reason; simpl; tauto ].

Section Failures.

Variable this : address.
Variable keccak256 : list bytes32 -> address -> bytes32.
Variable FHE_add : uint256 -> uint256 -> uint256.
Variable FHE_isInitialized : uint256 -> bool.
Variable FHE_checkSignatures : uint256 -> bytes -> bytes -> bool.

Local Abbreviation call :=
  (dispatch this keccak256 FHE_add FHE_isInitialized FHE_checkSignatures).

(** C8, as the code has it. Every failure of every external function is a
    rejection that leaves the storage as it was and carries one of: the
    nine custom errors the contract declares, one of its five reason
    strings, the arithmetic panic, or the empty revert of undecodable
    cleartexts. The failures for no data to decrypt, for an uninitialised
    ciphertext and for a cooldown that is not positive are of the second
    kind: reverts with the reason strings [No data to decrypt],
    [Congestion score not initialized] or [Eco score not initialized], and
    [Cooldown must be positive], none of them a typed error. *)
Theorem failures_are_custom_errors_or_reasons (tx : Tx) (s : Storage) (e : Error) :
  call tx s = Err e ->
  knownFailure e /\
  execute this keccak256 FHE_add FHE_isInitialized FHE_checkSignatures tx s = s /\
  (forall (s' : Storage) (sender : address) (now requestId : uint256),
     sender = owner s' -> paused s' = false ->
     readUint (lastDecryptionRequestTime s') sender + cooldownSeconds s'
       <= MAX_UINT256 ->
     readUint (lastDecryptionRequestTime s') sender + cooldownSeconds s' <= now ->
     Batch.isOpen (currentBatch s') = false ->
     Batch.submissionCount (currentBatch s') = 0 ->
     call (mkTx sender now (RequestBatchDecryption requestId)) s'
     = Err (ErrorString "No data to decrypt")) /\
  (forall (s' : Storage) (sender : address) (now c d : uint256),
     readFlag (isProvider s') sender = true -> paused s' = false ->
     readUint (lastSubmissionTime s') sender + cooldownSeconds s' <= MAX_UINT256 ->
     readUint (lastSubmissionTime s') sender + cooldownSeconds s' <= now ->
     Batch.isOpen (currentBatch s') = true ->
     (FHE_isInitialized c = false ->
        call (mkTx sender now (SubmitData c d)) s'
        = Err (ErrorString "Congestion score not initialized")) /\
     (FHE_isInitialized c = true -> FHE_isInitialized d = false ->
        call (mkTx sender now (SubmitData c d)) s'
        = Err (ErrorString "Eco score not initialized"))) /\
  (forall (s' : Storage) (sender : address) (now newCooldownSeconds : uint256),
     sender = owner s' -> newCooldownSeconds <= 0 ->
     call (mkTx sender now (SetCooldownSeconds newCooldownSeconds)) s'
     = Err (ErrorString "Cooldown must be positive")) /\
  (forall reason : string, isCustomError (ErrorString reason) = false).
Proof.
  intros Herr. split_and!.
  - revert Herr.
    destruct tx as [sender now c]. unfold dispatch. cbn [txSender txTimestamp txCall].
    destruct c as [newOwner|p|p| | |n| | |c d|requestId|requestId cleartexts proof].
    9: { rewrite submitData_run. intros H.
         repeat (case_match; simplify_eq/=; try done); known_failure. }
    9: { rewrite requestBatchDecryption_run. intros H.
         repeat (case_match; simplify_eq/=; try done); known_failure. }
    9: { rewrite myCallback_run. intros H.
         repeat (case_match; simplify_eq/=; try done); known_failure. }
    all: unfold transferOwnership, addProvider, removeProvider, pause, unpause,
           setCooldownSeconds, openBatch, closeBatch;
         rewrite ?onlyOwner_run, ?whenNotPaused_run;
         unfold revertIf, checkedAdd, bind, get, modify, emit, ret, revert;
         intros H; repeat (case_match; simplify_eq/=; try done); known_failure.
  - unfold execute, commit. rewrite Herr. reflexivity.
  - intros s' sender now requestId Ho Hp Hfit Hcool Hopen Hcount.
    unfold dispatch. cbn [txSender txTimestamp txCall].
    rewrite requestBatchDecryption_run, Hp, Hopen, Hcount, Ho, Z.eqb_refl.
    rewrite <- Ho.
    destruct (Z.leb_spec
                (readUint (lastDecryptionRequestTime s') sender + cooldownSeconds s')
                MAX_UINT256); [|lia].
    destruct (Z.ltb_spec now
                (readUint (lastDecryptionRequestTime s') sender + cooldownSeconds s'));
      [lia | reflexivity].
  - intros s' sender now c d Hprov Hp Hfit Hcool Hopen.
    unfold dispatch. cbn [txSender txTimestamp txCall].
    rewrite submitData_run, Hprov, Hp, Hopen.
    destruct (Z.leb_spec
                (readUint (lastSubmissionTime s') sender + cooldownSeconds s')
                MAX_UINT256); [|lia].
    destruct (Z.ltb_spec now
                (readUint (lastSubmissionTime s') sender + cooldownSeconds s'));
      [lia|].
    split.
    + intros ->. reflexivity.
    + intros -> ->. reflexivity.
  - intros s' sender now n Ho Hn.
    unfold dispatch. cbn [txSender txTimestamp txCall].
    unfold setCooldownSeconds. rewrite onlyOwner_run, Ho, Z.eqb_refl.
    destruct (Z.gtb_spec n 0); [lia | reflexivity].
  - reflexivity.
Qed.

End Failures.

(** Three failures of the scenario's contract that carry a reason string and
    no custom error: a cooldown of 0, an uninitialised ciphertext, and a
    decryption request for a closed batch without submissions. *)
Lemma string_reverts_are_not_typed :
  Instance.call (mkTx Instance.admin 100 (SetCooldownSeconds 0))
    (constructor Instance.admin)
  = Err (ErrorString "Cooldown must be positive") /\
  Instance.call (mkTx Instance.alice 300 (SubmitData 0 3)) Instance.firstSubmission
  = Err (ErrorString "Congestion score not initialized") /\
  Instance.call (mkTx Instance.admin 100 (RequestBatchDecryption 7))
    (constructor Instance.admin)
  = Err (ErrorString "No data to decrypt") /\
  ~ (forall (tx : Tx) (s : Storage) (e : Error),
       Instance.call tx s = Err e -> isCustomError e = true).
Proof.
  split; [vm_compute; reflexivity|].
  split; [vm_compute; reflexivity|].
  split; [vm_compute; reflexivity|].
  intros H.
  assert (Hfalse : isCustomError (ErrorString "Cooldown must be positive") = true).
  { apply (H (mkTx Instance.admin 100 (SetCooldownSeconds 0))
             (constructor Instance.admin)).
    vm_compute. reflexivity. }
  discriminate Hfalse.
Qed.

Lemma failures_are_custom_errors_or_reasons_witness :
  knownFailure (ErrorString "Cooldown must be positive") /\
  Instance.run (mkTx Instance.admin 100 (SetCooldownSeconds 0))
    (constructor Instance.admin)
  = constructor Instance.admin.
Proof.
  destruct (failures_are_custom_errors_or_reasons Instance.this Instance.keccak256
              Instance.FHE_add Instance.FHE_isInitialized Instance.FHE_checkSignatures
              (mkTx Instance.admin 100 (SetCooldownSeconds 0))
              (constructor Instance.admin)
              (ErrorString "Cooldown must be positive"))
    as (Hknown & Hsame & _).
  - vm_compute. reflexivity.
  - split; [exact Hknown | exact Hsame].
Defined.

(** * Further properties of the contract *)

Section Ledger.

Variable this : address.
Variable keccak256 : list bytes32 -> address -> bytes32.
Variable FHE_add : uint256 -> uint256 -> uint256.
Variable FHE_isInitialized : uint256 -> bool.
Variable FHE_checkSignatures : uint256 -> bytes -> bytes -> bool.

Local Abbreviation request := (requestBatchDecryption this keccak256).
Local Abbreviation callback := (myCallback this keccak256 FHE_checkSignatures).
Local Abbreviation submit := (submitData FHE_add FHE_isInitialized).
Local Abbreviation hash := (_hashCiphertexts this keccak256).
Local Abbreviation exec :=
  (execute this keccak256 FHE_add FHE_isInitialized FHE_checkSignatures).
Local Abbreviation execAll :=
  (executeAll this keccak256 FHE_add FHE_isInitialized FHE_checkSignatures).
Local Abbreviation call :=
  (dispatch this keccak256 FHE_add FHE_isInitialized FHE_checkSignatures).
Local Abbreviation reach :=
  (reachable this keccak256 FHE_add FHE_isInitialized FHE_checkSignatures).

(** What a transaction that returns has checked and done, call by call. *)
Lemma dispatch_Ok_inv (tx : Tx) (s s1 : Storage) (out : list Effect) :
  call tx s = Ok (tt, s1, out) ->
  match txCall tx with
  | TransferOwnership newOwner =>
      txSender tx = owner s /\ s1 = set_owner newOwner s /\
      out = [Emit (OwnershipTransferred (owner s) newOwner)]
  | AddProvider p =>
      txSender tx = owner s /\
      (readFlag (isProvider s) p = true /\ s1 = s /\ out = [] \/
       readFlag (isProvider s) p = false /\ s1 = set_isProvider p true s /\
       out = [Emit (ProviderAdded p)])
  | RemoveProvider p =>
      txSender tx = owner s /\
      (readFlag (isProvider s) p = false /\ s1 = s /\ out = [] \/
       readFlag (isProvider s) p = true /\ s1 = set_isProvider p false s /\
       out = [Emit (ProviderRemoved p)])
  | Pause =>
      txSender tx = owner s /\ paused s = false /\ s1 = set_paused true s /\
      out = [Emit (ContractPaused (txSender tx))]
  | Unpause =>
      txSender tx = owner s /\ s1 = set_paused false s /\
      out = [Emit (ContractUnpaused (txSender tx))]
  | SetCooldownSeconds n =>
      txSender tx = owner s /\ 0 < n /\ s1 = set_cooldownSeconds n s /\
      out = [Emit (CooldownSecondsUpdated (cooldownSeconds s) n)]
  | OpenBatch =>
      txSender tx = owner s /\ paused s = false /\
      Batch.id (currentBatch s) + 1 <= MAX_UINT256 /\
      s1 = set_currentBatch (Batch.mk (Batch.id (currentBatch s) + 1) true 0 0 0) s /\
      out = (if Batch.isOpen (currentBatch s)
             then [Emit (BatchClosed (Batch.id (currentBatch s)))] else [])
            ++ [Emit (BatchOpened (Batch.id (currentBatch s) + 1))]
  | CloseBatch =>
      txSender tx = owner s /\ paused s = false /\
      Batch.isOpen (currentBatch s) = true /\
      s1 = updBatch (batch_set_isOpen false) s /\
      out = [Emit (BatchClosed (Batch.id (currentBatch s)))]
  | SubmitData c e =>
      readFlag (isProvider s) (txSender tx) = true /\ paused s = false /\
      readUint (lastSubmissionTime s) (txSender tx) + cooldownSeconds s
        <= MAX_UINT256 /\
      readUint (lastSubmissionTime s) (txSender tx) + cooldownSeconds s
        <= txTimestamp tx /\
      Batch.isOpen (currentBatch s) = true /\
      FHE_isInitialized c = true /\ FHE_isInitialized e = true /\
      Batch.submissionCount (currentBatch s) + 1 <= MAX_UINT256 /\
      s1 = set_lastSubmissionTime (txSender tx) (txTimestamp tx)
             (set_currentBatch
                (Batch.mk (Batch.id (currentBatch s)) true
                   (FHE_add (Batch.totalEncryptedCongestionScore (currentBatch s)) c)
                   (FHE_add (Batch.totalEncryptedEcoScore (currentBatch s)) e)
                   (Batch.submissionCount (currentBatch s) + 1)) s) /\
      out = [Emit (DataSubmitted (txSender tx) (Batch.id (currentBatch s)))]
  | RequestBatchDecryption requestId =>
      txSender tx = owner s /\ paused s = false /\
      readUint (lastDecryptionRequestTime s) (txSender tx) + cooldownSeconds s
        <= MAX_UINT256 /\
      readUint (lastDecryptionRequestTime s) (txSender tx) + cooldownSeconds s
        <= txTimestamp tx /\
      Batch.isOpen (currentBatch s) = false /\
      Batch.submissionCount (currentBatch s) <> 0 /\
      s1 = requested this keccak256 (txSender tx) (txTimestamp tx) requestId s /\
      out = [OracleRequest (batchCiphertexts (currentBatch s));
             Emit (DecryptionRequested requestId (Batch.id (currentBatch s)))]
  | MyCallback requestId cleartexts proof =>
      requestId <> 0 /\
      processed (readContext (decryptionContexts s) requestId) = false /\
      Batch.id (currentBatch s)
      = batchId (readContext (decryptionContexts s) requestId) /\
      hash (batchCiphertexts (currentBatch s))
      = stateHash (readContext (decryptionContexts s) requestId) /\
      FHE_checkSignatures requestId cleartexts proof = true /\
      s1 = set_decryptionContext requestId
             {| batchId := batchId (readContext (decryptionContexts s) requestId);
                stateHash := stateHash (readContext (decryptionContexts s) requestId);
                processed := true |} s /\
      exists congestion eco,
        abiDecodeUint32Pair cleartexts = Some (congestion, eco) /\
        out = [Emit (DecryptionCompleted requestId (Batch.id (currentBatch s))
                       congestion eco)]
  end.
Proof.
  destruct tx as [sender now c]. unfold dispatch. cbn [txSender txTimestamp txCall].
  destruct c as [newOwner|p|p| | |n| | |c e|requestId|requestId cleartexts proof].
  - unfold transferOwnership. rewrite onlyOwner_run.
    destruct (Z.eqb_spec sender (owner s)); [|discriminate].
    intros [= <- <-]. auto.
  - destruct (Z.eq_dec sender (owner s)) as [Ho|Ho];
      [|rewrite addProvider_not_owner by assumption; discriminate].
    destruct (readFlag (isProvider s) p) eqn:Hp.
    + rewrite addProvider_present by assumption. intros [= <- <-]. auto.
    + rewrite addProvider_absent by assumption. intros [= <- <-]. auto 6.
  - destruct (Z.eq_dec sender (owner s)) as [Ho|Ho];
      [|rewrite removeProvider_not_owner by assumption; discriminate].
    destruct (readFlag (isProvider s) p) eqn:Hp.
    + rewrite removeProvider_present by assumption. intros [= <- <-]. auto 6.
    + rewrite removeProvider_absent by assumption. intros [= <- <-]. auto.
  - unfold pause. rewrite onlyOwner_run, whenNotPaused_run.
    destruct (Z.eqb_spec sender (owner s)); [|discriminate].
    destruct (paused s); [discriminate|]. intros [= <- <-]. auto.
  - unfold unpause. rewrite onlyOwner_run.
    destruct (Z.eqb_spec sender (owner s)); [|discriminate].
    intros [= <- <-]. auto.
  - unfold setCooldownSeconds. rewrite onlyOwner_run.
    destruct (Z.eqb_spec sender (owner s)); [|discriminate].
    destruct (Z.gtb_spec n 0); [|discriminate].
    intros [= <- <-]. auto.
  - destruct (Z.eq_dec sender (owner s)) as [Ho|Ho];
      [|unfold openBatch; rewrite onlyOwner_fail by assumption; discriminate].
    destruct (paused s) eqn:Hp;
      [unfold openBatch; rewrite onlyOwner_pass, whenNotPaused_fail by assumption;
       discriminate|].
    destruct (Z.le_gt_cases (Batch.id (currentBatch s) + 1) MAX_UINT256) as [Hid|Hid].
    + rewrite openBatch_run by assumption. intros [= <- <-]. auto 6.
    + rewrite openBatch_overflow by (assumption || lia). discriminate.
  - unfold closeBatch. rewrite onlyOwner_run, whenNotPaused_run.
    destruct (Z.eqb_spec sender (owner s)); [|discriminate].
    destruct (paused s); [discriminate|].
    rewrite bind_get.
    destruct (Batch.isOpen (currentBatch s)); [|discriminate].
    intros [= <- <-]. auto 6.
  - rewrite submitData_run.
    destruct (readFlag (isProvider s) sender); [|discriminate].
    destruct (paused s); [discriminate|].
    destruct (Z.leb_spec (readUint (lastSubmissionTime s) sender + cooldownSeconds s)
                MAX_UINT256); [|discriminate].
    destruct (Z.ltb_spec now
                (readUint (lastSubmissionTime s) sender + cooldownSeconds s));
      [discriminate|].
    destruct (Batch.isOpen (currentBatch s)); [|discriminate].
    destruct (FHE_isInitialized c); [|discriminate].
    destruct (FHE_isInitialized e); [|discriminate].
    cbn [negb].
    destruct (Z.leb_spec (Batch.submissionCount (currentBatch s) + 1) MAX_UINT256);
      [|discriminate].
    intros [= <- <-]. split_and!; auto.
  - rewrite requestBatchDecryption_run.
    destruct (Z.eqb_spec sender (owner s)); [|discriminate].
    destruct (paused s); [discriminate|].
    destruct (Z.leb_spec
                (readUint (lastDecryptionRequestTime s) sender + cooldownSeconds s)
                MAX_UINT256); [|discriminate].
    destruct (Z.ltb_spec now
                (readUint (lastDecryptionRequestTime s) sender + cooldownSeconds s));
      [discriminate|].
    destruct (Batch.isOpen (currentBatch s)); [discriminate|].
    destruct (Z.eqb_spec (Batch.submissionCount (currentBatch s)) 0); [discriminate|].
    intros [= <- <-]. split_and!; auto.
  - intros H. pose proof (myCallback_Ok _ _ _ _ _ _ _ _ _ H)
      as (Hrid & Hp & Hid & Hh & Hsig & Hs1).
    split_and!; try assumption.
    rewrite myCallback_run, Hp, Hsig, <- Hid, <- Hh, !Z.eqb_refl in H.
    destruct (Z.eqb_spec requestId 0); [contradiction|]. cbn [negb] in H.
    destruct (abiDecodeUint32Pair cleartexts) as [[a b]|]; [|discriminate].
    injection H as _ <-. eauto.
Qed.

(** ** Access control *)

Lemma dispatch_not_owner (tx : Tx) (s : Storage) :
  txSender tx <> owner s -> isOwnerCall (txCall tx) = true ->
  call tx s = Err NotOwner.
Proof.
  intros Ho Hc. destruct tx as [sender now c]. unfold dispatch.
  cbn [txSender txTimestamp txCall] in *.
  destruct c; try discriminate Hc;
    unfold transferOwnership, addProvider, removeProvider, pause, unpause,
      setCooldownSeconds, openBatch, closeBatch, requestBatchDecryption;
    apply onlyOwner_fail; assumption.
Qed.

(** X1. [closeBatch] closes an open batch once. Called by the owner while
    the contract is not paused, it reverts with [BatchNotOpen] on a closed
    batch; on an open batch it returns, emits [BatchClosed] of the batch id
    and only clears [isOpen] (id, aggregates and submission count stay), so
    that a second [closeBatch] right after it reverts with [BatchNotOpen]. *)
Theorem closeBatch_closes_once (s : Storage) (sender : address) :
  sender = owner s -> paused s = false ->
  (Batch.isOpen (currentBatch s) = false -> closeBatch sender s = Err BatchNotOpen) /\
  (Batch.isOpen (currentBatch s) = true ->
     closeBatch sender s
     = Ok (tt, updBatch (batch_set_isOpen false) s,
           [Emit (BatchClosed (Batch.id (currentBatch s)))]) /\
     currentBatch (commit (closeBatch sender) s)
     = Batch.mk (Batch.id (currentBatch s)) false
         (Batch.totalEncryptedCongestionScore (currentBatch s))
         (Batch.totalEncryptedEcoScore (currentBatch s))
         (Batch.submissionCount (currentBatch s)) /\
     closeBatch sender (commit (closeBatch sender) s) = Err BatchNotOpen).
Proof.
  intros Ho Hp.
  assert (Hrun : forall s', sender = owner s' -> paused s' = false ->
            closeBatch sender s'
            = if Batch.isOpen (currentBatch s')
              then Ok (tt, updBatch (batch_set_isOpen false) s',
                       [Emit (BatchClosed (Batch.id (currentBatch s')))])
              else Err BatchNotOpen).
  { intros s' Ho' Hp'. unfold closeBatch.
    rewrite onlyOwner_pass, whenNotPaused_pass by assumption. rewrite bind_get.
    destruct (Batch.isOpen (currentBatch s')); reflexivity. }
  split.
  - intros Hopen. rewrite Hrun, Hopen by assumption. reflexivity.
  - intros Hopen. unfold commit. rewrite (Hrun s Ho Hp), Hopen.
    split_and!; try reflexivity.
    rewrite Hrun by assumption. reflexivity.
Qed.

(** X2. [transferOwnership] hands the contract over in one step, paused or
    not and to any address: called by the owner it always returns, emits
    [OwnershipTransferred] with the old and the new owner, and changes the
    owner only. From then on the new owner passes [onlyOwner], and when the
    new owner is another address than the previous one, every
    administrative call of the previous owner reverts with [NotOwner]. A
    transfer of the owner to itself leaves the storage as it was. *)
Theorem transferOwnership_hands_over (s : Storage) (sender newOwner : address) :
  sender = owner s ->
  transferOwnership sender newOwner s
  = Ok (tt, set_owner newOwner s, [Emit (OwnershipTransferred sender newOwner)]) /\
  owner (commit (transferOwnership sender newOwner) s) = newOwner /\
  (forall tx : Tx,
     txSender tx = sender -> sender <> newOwner ->
     isOwnerCall (txCall tx) = true ->
     call tx (commit (transferOwnership sender newOwner) s) = Err NotOwner) /\
  (forall (A : Type) (body : M A),
     onlyOwner newOwner body (commit (transferOwnership sender newOwner) s)
     = body (commit (transferOwnership sender newOwner) s)) /\
  (newOwner = sender -> commit (transferOwnership sender newOwner) s = s).
Proof.
  intros Ho.
  assert (Hrun : transferOwnership sender newOwner s
                 = Ok (tt, set_owner newOwner s,
                       [Emit (OwnershipTransferred sender newOwner)])).
  { unfold transferOwnership. rewrite onlyOwner_pass by assumption.
    rewrite Ho. reflexivity. }
  unfold commit. rewrite Hrun. split_and!; try reflexivity.
  - intros tx Hs Hne Hc. apply dispatch_not_owner; [|exact Hc].
    rewrite Hs. exact Hne.
  - intros A body. apply onlyOwner_pass. reflexivity.
  - intros ->. rewrite Ho. destruct s. reflexivity.
Qed.

(** X3. Whoever is not the owner cannot administer the contract. Each of the
    nine owner functions reverts with [NotOwner] for such a caller, and no
    transaction of such a caller, whatever it is, changes the owner, the
    submitter flags, the pause flag, the cooldown, the id or the open state
    of the batch, or the recorded decryption-request times. *)
Theorem non_owner_cannot_administer (tx : Tx) (s : Storage) :
  txSender tx <> owner s ->
  (isOwnerCall (txCall tx) = true -> call tx s = Err NotOwner) /\
  owner (exec tx s) = owner s /\
  isProvider (exec tx s) = isProvider s /\
  paused (exec tx s) = paused s /\
  cooldownSeconds (exec tx s) = cooldownSeconds s /\
  Batch.id (currentBatch (exec tx s)) = Batch.id (currentBatch s) /\
  Batch.isOpen (currentBatch (exec tx s)) = Batch.isOpen (currentBatch s) /\
  lastDecryptionRequestTime (exec tx s) = lastDecryptionRequestTime s.
Proof.
  intros Ho. split; [apply dispatch_not_owner; assumption|].
  unfold execute, commit.
  destruct (call tx s) as [[[[] s1] out]|e] eqn:Hcall; [|auto 10].
  apply dispatch_Ok_inv in Hcall.
  destruct (txCall tx); try (destruct Hcall as [Hcall _]; contradiction).
  - destruct Hcall as (_ & _ & _ & _ & Hopen & _ & _ & _ & -> & _).
    cbn. rewrite Hopen. auto 10.
  - destruct Hcall as (_ & _ & _ & _ & _ & -> & _). cbn. auto 10.
Qed.

(** ** The pause flag *)


(** ** The invariant *)

Lemma invariant_constructor (deployer : address) :
  invariant this keccak256 (constructor deployer).
Proof.
  unfold invariant. cbn. split_and!; try lia; try (apply Z.leb_le; reflexivity); auto.
  intros requestId ctx H. rewrite lookup_empty in H. discriminate.
Qed.

Lemma invariant_dispatch (tx : Tx) (s s1 : Storage) (out : list Effect) :
  invariant this keccak256 s -> call tx s = Ok (tt, s1, out) ->
  invariant this keccak256 s1.
Proof.
  intros (Hcd & Hid & Hcount & Hzero & Hctx) Hcall.
  apply dispatch_Ok_inv in Hcall. unfold invariant.
  destruct (txCall tx) as [newOwner|p|p| | |n| | |c e|requestId|requestId cleartexts proof].
  - destruct Hcall as (_ & -> & _). cbn. auto.
  - destruct Hcall as (_ & [(_ & -> & _)|(_ & -> & _)]); cbn; auto.
  - destruct Hcall as (_ & [(_ & -> & _)|(_ & -> & _)]); cbn; auto.
  - destruct Hcall as (_ & _ & -> & _). cbn. auto.
  - destruct Hcall as (_ & -> & _). cbn. auto.
  - destruct Hcall as (_ & Hn & -> & _). cbn. auto.
  - destruct Hcall as (_ & _ & Hfit & -> & _). cbn.
    split_and!; try lia; auto.
    intros rid ctx Hl. destruct (Hctx rid ctx Hl) as (Hb & Hp & _).
    split_and!; try lia; try assumption.
  - destruct Hcall as (_ & _ & Hopen & -> & _). cbn.
    split_and!; try lia; auto.
    intros rid ctx Hl. destruct (Hctx rid ctx Hl) as (Hb & Hp & Hcur).
    split_and!; try lia; try assumption.
    intros Heq. destruct (Hcur Heq) as (Hclosed & _). congruence.
  - destruct Hcall as (_ & _ & _ & _ & Hopen & _ & _ & Hfit & -> & _). cbn.
    split_and!; try lia; auto.
    intros rid ctx Hl. destruct (Hctx rid ctx Hl) as (Hb & Hp & Hcur).
    split_and!; try lia; try assumption.
    intros Heq. destruct (Hcur Heq) as (Hclosed & _). congruence.
  - destruct Hcall as (_ & _ & _ & _ & Hclosed & Hne & -> & _). cbn.
    split_and!; try lia; auto.
    intros rid ctx Hl. rewrite lookup_insert in Hl.
    destruct (decide (requestId = rid)) as [->|Hrid].
    + injection Hl as <-. cbn. split_and!; try lia; try discriminate; auto.
    + exact (Hctx rid ctx Hl).
  - destruct Hcall as (Hrid & Hp & Hbid & Hh & _ & -> & _). cbn.
    split_and!; try lia; auto.
    intros rid ctx Hl. rewrite lookup_insert in Hl.
    destruct (decide (requestId = rid)) as [->|Hne]; [|exact (Hctx rid ctx Hl)].
    injection Hl as <-. cbn. unfold readContext in *.
    destruct (decryptionContexts s !! rid) as [ctx0|] eqn:Hl0.
    + cbn in *. destruct (Hctx rid ctx0 Hl0) as (Hb & _ & Hcur).
      split_and!; try lia; try assumption; intros _; exact Hrid.
    + cbn in Hbid. lia.
Qed.

Lemma invariant_reachable (s : Storage) :
  reach s -> invariant this keccak256 s.
Proof.
  intros Hreach. induction Hreach as [deployer|tx s Hs IH].
  - apply invariant_constructor.
  - unfold execute, commit.
    destruct (call tx s) as [[[[] s1] out]|e] eqn:Hcall; [|exact IH].
    exact (invariant_dispatch tx s s1 out IH Hcall).
Qed.

(** X5. The storage invariant holds in every storage the contract can be in:
    the cooldown is positive; the batch id is a [uint256] at least 1 and the
    submission count a [uint256]; a batch without submissions has zero
    aggregates; every stored decryption context carries a batch id between 1
    and the current one; the context under the request id 0 is never
    processed; and a context for the current batch means that this batch is
    closed, has submissions, and still hashes to the stored state hash. *)
Theorem reachable_invariant (s : Storage) :
  reach s -> invariant this keccak256 s.
Proof.
  induction 1 as [deployer|tx s Hs IH]; [apply invariant_constructor|].
  unfold execute, commit.
  destruct (call tx s) as [[[[] s1] out]|e] eqn:Hcall; [|exact IH].
  exact (invariant_dispatch tx s s1 out IH Hcall).
Qed.

(** X6. In a storage the contract can be in, a callback never reverts with
    [StateMismatch]: a context whose batch id is the current one belongs to a
    closed batch whose handles have not changed since the request, and every
    other request is stopped by an earlier check. The comparison of the
    state hashes is a second line of defence that the contract's own
    transactions never trigger. *)
Theorem reachable_never_StateMismatch (s : Storage) (requestId : uint256)
    (cleartexts proof : bytes) :
  reach s -> callback requestId cleartexts proof s <> Err StateMismatch.
Proof.
  intros Hreach. apply invariant_reachable in Hreach as (_ & Hid & _ & _ & Hctx).
  rewrite myCallback_run. unfold readContext.
  destruct (Z.eqb_spec requestId 0); [discriminate|].
  destruct (decryptionContexts s !! requestId) as [ctx|] eqn:Hl; cbn.
  - destruct (processed ctx); [discriminate|].
    destruct (Z.eqb_spec (Batch.id (currentBatch s)) (batchId ctx)) as [Heq|];
      [|discriminate].
    destruct (Hctx requestId ctx Hl) as (_ & _ & Hcur).
    destruct (Hcur (eq_sym Heq)) as (_ & _ & ->).
    rewrite Z.eqb_refl. cbn. repeat case_match; discriminate.
  - destruct (Z.eqb_spec (Batch.id (currentBatch s)) 0); [lia | discriminate].
Qed.

(** ** The closed batch *)

(** X7. A closed batch is frozen: no transaction changes the current batch
    while it is closed (id, aggregates and submission count stay as they
    are), except an [openBatch] of the owner on the unpaused contract, which
    replaces it by the next, empty and open, batch. *)
Theorem closed_batch_is_frozen (tx : Tx) (s : Storage) :
  Batch.isOpen (currentBatch s) = false ->
  currentBatch (exec tx s) = currentBatch s \/
  (txCall tx = OpenBatch /\ txSender tx = owner s /\ paused s = false /\
   currentBatch (exec tx s) = Batch.mk (Batch.id (currentBatch s) + 1) true 0 0 0).
Proof.
  intros Hclosed. unfold execute, commit.
  destruct (call tx s) as [[[[] s1] out]|e] eqn:Hcall; [|left; reflexivity].
  apply dispatch_Ok_inv in Hcall.
  destruct (txCall tx) as [newOwner|p|p| | |n| | |c e|requestId|requestId cleartexts proof].
  - destruct Hcall as (_ & -> & _). left. reflexivity.
  - destruct Hcall as (_ & [(_ & -> & _)|(_ & -> & _)]); left; reflexivity.
  - destruct Hcall as (_ & [(_ & -> & _)|(_ & -> & _)]); left; reflexivity.
  - destruct Hcall as (_ & _ & -> & _). left. reflexivity.
  - destruct Hcall as (_ & -> & _). left. reflexivity.
  - destruct Hcall as (_ & _ & -> & _). left. reflexivity.
  - destruct Hcall as (Ho & Hp & _ & -> & _). right. auto.
  - destruct Hcall as (_ & _ & Hopen & _). congruence.
  - destruct Hcall as (_ & _ & _ & _ & Hopen & _). congruence.
  - destruct Hcall as (_ & _ & _ & _ & _ & _ & -> & _). left. reflexivity.
  - destruct Hcall as (_ & _ & _ & _ & _ & -> & _). left. reflexivity.
Qed.

(** A pending request for an earlier batch stays as it is, and stays behind
    the current batch, through every transaction that does not store a new
    context under its request id. *)
Lemma execute_keeps_stale (tx : Tx) (s : Storage) (requestId : uint256) :
  txCall tx <> RequestBatchDecryption requestId ->
  batchId (readContext (decryptionContexts s) requestId) < Batch.id (currentBatch s) ->
  readContext (decryptionContexts (exec tx s)) requestId
  = readContext (decryptionContexts s) requestId /\
  batchId (readContext (decryptionContexts s) requestId)
  < Batch.id (currentBatch (exec tx s)).
Proof.
  intros Hne Hlt. unfold execute, commit.
  destruct (call tx s) as [[[[] s1] out]|e] eqn:Hcall; [|auto].
  pose proof (dispatch_batch_id _ _ _ _ _ _ _ _ _ Hcall) as Hmono.
  split; [|lia].
  pose proof (dispatch_decryptionContexts _ _ _ _ _ _ _ _ _ Hcall) as Hctxs.
  apply dispatch_Ok_inv in Hcall.
  destruct (txCall tx) as [ | | | | | | | | |rid|rid cleartexts proof];
    try (rewrite Hctxs; reflexivity).
  - subst s1. unfold requested, readContext. cbn.
    rewrite lookup_insert_ne by congruence. reflexivity.
  - subst s1. rewrite readContext_set_decryptionContext.
    destruct (decide (rid = requestId)) as [->|]; [|reflexivity].
    destruct Hcall as (_ & _ & Hid & _). lia.
Qed.

(** X8. A decryption request that is still pending when the next batch is
    opened can never be completed. If the batch id of an unprocessed context
    is below the current batch id, then after every sequence of
    transactions that stores no new context under the same request id,
    every callback for it reverts: with [InvalidBatchId] when the request
    id is not 0, and with the reason string [Invalid request ID] when it is
    0. The result of that batch is never revealed. *)
Theorem stale_request_never_completes (s : Storage) (requestId : uint256)
    (txs : list Tx) (cleartexts proof : bytes) :
  processed (readContext (decryptionContexts s) requestId) = false ->
  batchId (readContext (decryptionContexts s) requestId) < Batch.id (currentBatch s) ->
  Forall (fun tx => txCall tx <> RequestBatchDecryption requestId) txs ->
  callback requestId cleartexts proof (execAll txs s)
  = Err (if requestId =? 0 then ErrorString "Invalid request ID"
         else InvalidBatchId).
Proof.
  intros Hp Hlt Hall. revert s Hp Hlt.
  induction Hall as [|tx txs Htx _ IH]; intros s Hp Hlt.
  - cbn. rewrite myCallback_run, Hp.
    destruct (requestId =? 0); [reflexivity|].
    destruct (Z.eqb_spec (Batch.id (currentBatch s))
                (batchId (readContext (decryptionContexts s) requestId)));
      [lia | reflexivity].
  - cbn [executeAll fold_left].
    destruct (execute_keeps_stale tx s requestId Htx Hlt) as [Hsame Hlt'].
    apply IH; rewrite Hsame; assumption.
Qed.

(** ** Request and callback together *)

Lemma beWord_nonneg (bs : bytes) : 0 <= beWord bs.
Proof.
  unfold beWord.
  assert (H : forall acc, 0 <= acc ->
            0 <= fold_left (fun acc b => acc * 256 + Z.of_N (Byte.to_N b)) bs acc).
  { induction bs as [|b bs IH]; intros a Ha; cbn [fold_left]; [exact Ha|].
    apply IH. lia. }
  apply H. lia.
Qed.

(** The decoded cleartexts are [uint32] values. *)
Lemma abiDecodeUint32Pair_bounds (data : bytes) (a b : Z) :
  abiDecodeUint32Pair data = Some (a, b) ->
  0 <= a < 2 ^ 32 /\ 0 <= b < 2 ^ 32.
Proof.
  unfold abiDecodeUint32Pair.
  destruct (length data <? 64)%nat; [discriminate|].
  destruct (Z.ltb_spec (beWord (firstn 32 data)) (2 ^ 32)); [|discriminate].
  destruct (Z.ltb_spec (beWord (firstn 32 (skipn 32 data))) (2 ^ 32)); [|discriminate].
  intros [= <- <-]. split; split; try assumption; apply beWord_nonneg.
Qed.

(** X9. What the oracle's answer does to a request that has just been
    stored under a nonzero request id. A callback whose proof does not
    verify reverts with [InvalidProof], and one whose proof verifies but
    whose cleartexts do not decode as two [uint32] reverts without data;
    neither consumes the request. A callback whose proof verifies and whose
    cleartexts decode returns: it marks the context processed and emits
    [DecryptionCompleted] with the request id, the id of the batch and the
    two decoded totals, each below [2^32]. *)
Theorem request_then_callback (s s1 : Storage) (sender : address)
    (now requestId : uint256) (out : list Effect) (cleartexts proof : bytes) :
  request sender now requestId s = Ok (tt, s1, out) ->
  requestId <> 0 ->
  (FHE_checkSignatures requestId cleartexts proof = false ->
     callback requestId cleartexts proof s1 = Err InvalidProof) /\
  (FHE_checkSignatures requestId cleartexts proof = true ->
   abiDecodeUint32Pair cleartexts = None ->
     callback requestId cleartexts proof s1 = Err RevertEmpty) /\
  (forall congestion eco : Z,
     FHE_checkSignatures requestId cleartexts proof = true ->
     abiDecodeUint32Pair cleartexts = Some (congestion, eco) ->
     callback requestId cleartexts proof s1
     = Ok (tt,
           set_decryptionContext requestId
             {| batchId := Batch.id (currentBatch s);
                stateHash := hash (batchCiphertexts (currentBatch s));
                processed := true |} s1,
           [Emit (DecryptionCompleted requestId (Batch.id (currentBatch s))
                    congestion eco)]) /\
     0 <= congestion < 2 ^ 32 /\ 0 <= eco < 2 ^ 32).
Proof.
  intros Hreq Hrid. apply requestBatchDecryption_Ok in Hreq as [-> _].
  pose proof (readContext_requested this keccak256 s sender now requestId) as Hctx.
  assert (Hrun := myCallback_run this keccak256 FHE_checkSignatures
                    (requested this keccak256 sender now requestId s)
                    requestId cleartexts proof).
  rewrite Hctx in Hrun. cbn [batchId stateHash processed] in Hrun.
  change (currentBatch (requested this keccak256 sender now requestId s))
    with (currentBatch s) in Hrun.
  rewrite !Z.eqb_refl in Hrun. cbn [negb] in Hrun.
  destruct (Z.eqb_spec requestId 0); [contradiction|].
  split_and!.
  - intros Hsig. rewrite Hsig in Hrun. exact Hrun.
  - intros Hsig Hdec. rewrite Hsig, Hdec in Hrun. exact Hrun.
  - intros congestion eco Hsig Hdec. rewrite Hsig, Hdec in Hrun.
    split; [exact Hrun|]. exact (abiDecodeUint32Pair_bounds _ _ _ Hdec).
Qed.

(** ** Aggregation *)

Lemma bind_Ok_inv {A B} (c : M A) (k : A -> M B) s b s2 out :
  bind c k s = Ok (b, s2, out) ->
  exists a s1 out1 out2,
    c s = Ok (a, s1, out1) /\ k a s1 = Ok (b, s2, out2) /\ out = out1 ++ out2.
Proof.
  unfold bind. destruct (c s) as [[[a s1] out1]|e]; [|discriminate].
  destruct (k a s1) as [[[b' s2'] out2]|e] eqn:Hk; [|discriminate].
  intros [= <- <- <-]. eauto 8.
Qed.

(** X10. Submissions accumulate by folding [FHE.add]. When a sequence of
    submissions into the current batch returns, the two aggregates of the
    batch are the left folds of [FHE.add] over the congestion handles and
    over the eco handles, in the order of the submissions and starting from
    the aggregates before; the submission count has grown by the number of
    submissions; the batch has kept its id; one [DataSubmitted] was emitted
    per submission, with its sender and the batch id; and the stored
    decryption contexts are untouched. *)
Theorem submitAll_folds (subs : list Submission) (s s1 : Storage) (out : list Effect) :
  submitAll FHE_add FHE_isInitialized subs s = Ok (tt, s1, out) ->
  Batch.totalEncryptedCongestionScore (currentBatch s1)
  = fold_left FHE_add (map subCongestion subs)
      (Batch.totalEncryptedCongestionScore (currentBatch s)) /\
  Batch.totalEncryptedEcoScore (currentBatch s1)
  = fold_left FHE_add (map subEco subs)
      (Batch.totalEncryptedEcoScore (currentBatch s)) /\
  Batch.submissionCount (currentBatch s1)
  = Batch.submissionCount (currentBatch s) + Z.of_nat (length subs) /\
  Batch.id (currentBatch s1) = Batch.id (currentBatch s) /\
  out = map (fun x => Emit (DataSubmitted (subSender x) (Batch.id (currentBatch s))))
          subs /\
  decryptionContexts s1 = decryptionContexts s.
Proof.
  revert s out. induction subs as [|x rest IH]; intros s out Hrun.
  - cbn in Hrun. injection Hrun as <- <-. cbn. split_and!; try reflexivity. lia.
  - cbn [submitAll] in Hrun.
    apply bind_Ok_inv in Hrun as ([] & s0 & out1 & out2 & Hx & Hrest & ->).
    pose proof (dispatch_Ok_inv
                  (mkTx (subSender x) (subTime x) (SubmitData (subCongestion x) (subEco x)))
                  s s0 out1 Hx) as Hinv.
    cbn [txCall txSender txTimestamp] in Hinv.
    destruct Hinv as (_ & _ & _ & _ & _ & _ & _ & _ & -> & ->).
    apply IH in Hrest as (Hc & He & Hn & Hid & -> & Hctx).
    cbn in Hc, He, Hn, Hid, Hctx |- *.
    rewrite Hc, He, Hn, Hid, Hctx. split_and!; try reflexivity. lia.
Qed.

Lemma fold_left_permutation (f : Z -> Z -> Z) (l l' : list Z) :
  (forall a b, f a b = f b a) ->
  (forall a b c, f (f a b) c = f a (f b c)) ->
  Permutation l l' -> forall a, fold_left f l a = fold_left f l' a.
Proof.
  intros Hcomm Hassoc Hperm.
  induction Hperm as [|x l l' _ IH|x y l|l l' l'' _ IH1 _ IH2]; intros a; cbn.
  - reflexivity.
  - apply IH.
  - f_equal. rewrite !Hassoc. f_equal. apply Hcomm.
  - rewrite IH1. apply IH2.
Qed.

(** The aggregates after a sequence of submissions, alone. *)
Lemma submitAll_aggregates (subs : list Submission) (s s1 : Storage) (out : list Effect) :
  submitAll FHE_add FHE_isInitialized subs s = Ok (tt, s1, out) ->
  Batch.totalEncryptedCongestionScore (currentBatch s1)
  = fold_left FHE_add (map subCongestion subs)
      (Batch.totalEncryptedCongestionScore (currentBatch s)) /\
  Batch.totalEncryptedEcoScore (currentBatch s1)
  = fold_left FHE_add (map subEco subs)
      (Batch.totalEncryptedEcoScore (currentBatch s)).
Proof.
  revert s out. induction subs as [|x rest IH]; intros s out Hrun.
  - cbn in Hrun. injection Hrun as <- <-. cbn. auto.
  - cbn [submitAll] in Hrun.
    apply bind_Ok_inv in Hrun as ([] & s0 & out1 & out2 & Hx & Hrest & ->).
    rewrite submitData_run in Hx.
    repeat (case_match; try discriminate). injection Hx as <- <-.
    apply IH in Hrest as [-> ->]. cbn. auto.
Qed.

(** X11. With an [FHE.add] that is commutative and associative, the
    aggregates do not depend on the order of the submissions: two sequences
    of submissions that both return, start from the same aggregates and
    carry the same pairs of handles in any order leave the same two
    aggregates. *)
Theorem aggregates_order_independent (subs subs' : list Submission)
    (s s' s1 s1' : Storage) (out out' : list Effect) :
  (forall a b, FHE_add a b = FHE_add b a) ->
  (forall a b c, FHE_add (FHE_add a b) c = FHE_add a (FHE_add b c)) ->
  submitAll FHE_add FHE_isInitialized subs s = Ok (tt, s1, out) ->
  submitAll FHE_add FHE_isInitialized subs' s' = Ok (tt, s1', out') ->
  Batch.totalEncryptedCongestionScore (currentBatch s)
  = Batch.totalEncryptedCongestionScore (currentBatch s') ->
  Batch.totalEncryptedEcoScore (currentBatch s)
  = Batch.totalEncryptedEcoScore (currentBatch s') ->
  Permutation (map (fun x => (subCongestion x, subEco x)) subs)
    (map (fun x => (subCongestion x, subEco x)) subs') ->
  Batch.totalEncryptedCongestionScore (currentBatch s1)
  = Batch.totalEncryptedCongestionScore (currentBatch s1') /\
  Batch.totalEncryptedEcoScore (currentBatch s1)
  = Batch.totalEncryptedEcoScore (currentBatch s1').
Proof.
  intros Hcomm Hassoc Hrun Hrun' Hc He Hperm.
  apply submitAll_aggregates in Hrun as [-> ->].
  apply submitAll_aggregates in Hrun' as [-> ->].
  rewrite Hc, He. split.
  - apply fold_left_permutation; [assumption | assumption |].
    apply (Permutation_map fst) in Hperm. rewrite !map_map in Hperm. exact Hperm.
  - apply fold_left_permutation; [assumption | assumption |].
    apply (Permutation_map snd) in Hperm. rewrite !map_map in Hperm. exact Hperm.
Qed.

(** ** Rate limiter: bounds *)

(** X12. The cooldown is added to the recorded time with checked
    arithmetic, and [setCooldownSeconds] accepts every positive value. When
    the recorded time of a principal plus the cooldown exceeds the [uint256]
    range, every submission of that principal (authorised, contract not
    paused) and every decryption request of the owner reverts with the
    arithmetic panic, at every block time and whatever the inputs: the
    principal is locked out until the owner lowers the cooldown. *)
Theorem cooldown_overflow_locks_out (s : Storage) (p : address) (now : uint256) :
  paused s = false ->
  (MAX_UINT256 < readUint (lastSubmissionTime s) p + cooldownSeconds s ->
   readFlag (isProvider s) p = true ->
   forall c e : uint256, submit p now c e s = Err (Panic 17)) /\
  (MAX_UINT256 < readUint (lastDecryptionRequestTime s) p + cooldownSeconds s ->
   p = owner s ->
   forall requestId : uint256, request p now requestId s = Err (Panic 17)) /\
  (forall n : uint256,
     0 < n -> p = owner s ->
     setCooldownSeconds p n s
     = Ok (tt, set_cooldownSeconds n s,
           [Emit (CooldownSecondsUpdated (cooldownSeconds s) n)])).
Proof.
  intros Hp. split_and!.
  - intros Hover Hprov c e. rewrite submitData_run, Hprov, Hp.
    destruct (Z.leb_spec (readUint (lastSubmissionTime s) p + cooldownSeconds s)
                MAX_UINT256); [lia | reflexivity].
  - intros Hover Ho requestId. rewrite requestBatchDecryption_run, Hp, Ho, Z.eqb_refl.
    rewrite <- Ho.
    destruct (Z.leb_spec
                (readUint (lastDecryptionRequestTime s) p + cooldownSeconds s)
                MAX_UINT256); [lia | reflexivity].
  - intros n Hn Ho. unfold setCooldownSeconds. rewrite onlyOwner_pass by assumption.
    destruct (Z.gtb_spec n 0); [reflexivity | lia].
Qed.

(** X13. The two cooldown classes are kept apart. A decryption request
    that returns records the block time as the decryption-request time of
    its sender and leaves the recorded time of every other principal; the
    recorded decryption-request time of a principal changes only by such a
    request of that principal; in particular no submission touches it, and
    no decryption request touches a recorded submission time. *)
Theorem decryption_time_recorded_by_request_only (tx : Tx) (s : Storage) (q : address) :
  (forall (requestId : uint256) (s1 : Storage) (out : list Effect),
     txCall tx = RequestBatchDecryption requestId ->
     call tx s = Ok (tt, s1, out) ->
     readUint (lastDecryptionRequestTime (exec tx s)) (txSender tx) = txTimestamp tx /\
     (q <> txSender tx ->
      readUint (lastDecryptionRequestTime (exec tx s)) q
      = readUint (lastDecryptionRequestTime s) q)) /\
  (readUint (lastDecryptionRequestTime (exec tx s)) q
   <> readUint (lastDecryptionRequestTime s) q ->
   exists requestId s1 out,
     txCall tx = RequestBatchDecryption requestId /\ txSender tx = q /\
     q = owner s /\ call tx s = Ok (tt, s1, out) /\
     readUint (lastDecryptionRequestTime (exec tx s)) q = txTimestamp tx) /\
  (forall c e : uint256,
     txCall tx = SubmitData c e ->
     lastDecryptionRequestTime (exec tx s) = lastDecryptionRequestTime s) /\
  (forall requestId : uint256,
     txCall tx = RequestBatchDecryption requestId ->
     lastSubmissionTime (exec tx s) = lastSubmissionTime s).
Proof.
  split.
  { intros requestId s1 out Hc Hcall. unfold execute, commit. rewrite Hcall.
    pose proof (dispatch_Ok_inv tx s s1 out Hcall) as Hinv. rewrite Hc in Hinv.
    destruct Hinv as (_ & _ & _ & _ & _ & _ & -> & _).
    cbn. rewrite !readUint_insert. split.
    - destruct (decide (txSender tx = txSender tx)); [reflexivity | contradiction].
    - intros Hq. destruct (decide (txSender tx = q)); [congruence | reflexivity]. }
  unfold execute, commit.
  destruct (call tx s) as [[[[] s1] out]|e] eqn:Hcall.
  2: { split_and!; [intros H; contradiction | reflexivity | reflexivity]. }
  pose proof (dispatch_Ok_inv tx s s1 out Hcall) as Hinv.
  destruct (txCall tx) as [newOwner|p|p| | |n| | |c e|requestId|requestId cleartexts proof].
  - destruct Hinv as (_ & -> & _). split_and!; try discriminate. intros H. contradiction.
  - destruct Hinv as (_ & [(_ & -> & _)|(_ & -> & _)]);
      (split_and!; try discriminate; intros H; contradiction).
  - destruct Hinv as (_ & [(_ & -> & _)|(_ & -> & _)]);
      (split_and!; try discriminate; intros H; contradiction).
  - destruct Hinv as (_ & _ & -> & _). split_and!; try discriminate. intros H. contradiction.
  - destruct Hinv as (_ & -> & _). split_and!; try discriminate. intros H. contradiction.
  - destruct Hinv as (_ & _ & -> & _). split_and!; try discriminate. intros H. contradiction.
  - destruct Hinv as (_ & _ & _ & -> & _). split_and!; try discriminate.
    intros H. contradiction.
  - destruct Hinv as (_ & _ & _ & -> & _). split_and!; try discriminate.
    intros H. contradiction.
  - destruct Hinv as (_ & _ & _ & _ & _ & _ & _ & _ & -> & _).
    split_and!; try discriminate; [intros H; contradiction | reflexivity].
  - destruct Hinv as (Ho & _ & _ & _ & _ & _ & -> & _).
    split_and!; try discriminate; [|reflexivity].
    cbn. rewrite readUint_insert.
    destruct (decide (txSender tx = q)) as [Hq|]; [|intros H; contradiction].
    intros _. exists requestId, (requested this keccak256 (txSender tx) (txTimestamp tx) requestId s), out.
    split_and!; try reflexivity; try assumption. congruence.
  - destruct Hinv as (_ & _ & _ & _ & _ & -> & _). split_and!; try discriminate.
    intros H. contradiction.
Qed.

(** ** Submitters *)

(** X14. Authorisation is checked first and on every submission. After the
    owner has removed a principal, every submission of that principal
    reverts with [NotProvider], whatever the state of the contract
    otherwise; adding after removing, or removing after adding, leaves the
    flag of the last call; and the flag of every other principal is left as
    it was. *)
Theorem removeProvider_revokes (s : Storage) (sender p : address) :
  sender = owner s ->
  readFlag (isProvider (commit (removeProvider sender p) s)) p = false /\
  (forall (now c e : uint256),
     submit p now c e (commit (removeProvider sender p) s) = Err NotProvider) /\
  readFlag (isProvider (commit (addProvider sender p)
                          (commit (removeProvider sender p) s))) p = true /\
  readFlag (isProvider (commit (removeProvider sender p)
                          (commit (addProvider sender p) s))) p = false /\
  (forall q : address,
     q <> p ->
     readFlag (isProvider (commit (removeProvider sender p) s)) q
     = readFlag (isProvider s) q /\
     readFlag (isProvider (commit (addProvider sender p) s)) q
     = readFlag (isProvider s) q).
Proof.
  intros Ho.
  assert (Hrem : forall s', sender = owner s' ->
            readFlag (isProvider (commit (removeProvider sender p) s')) p = false /\
            owner (commit (removeProvider sender p) s') = owner s').
  { intros s' Ho'. unfold commit.
    destruct (readFlag (isProvider s') p) eqn:Hp.
    - rewrite removeProvider_present by assumption.
      split; [apply readFlag_set_isProvider | reflexivity].
    - rewrite removeProvider_absent by assumption. auto. }
  assert (Hadd : forall s', sender = owner s' ->
            readFlag (isProvider (commit (addProvider sender p) s')) p = true /\
            owner (commit (addProvider sender p) s') = owner s').
  { intros s' Ho'. unfold commit.
    destruct (readFlag (isProvider s') p) eqn:Hp.
    - rewrite addProvider_present by assumption. auto.
    - rewrite addProvider_absent by assumption.
      split; [apply readFlag_set_isProvider | reflexivity]. }
  destruct (Hrem s Ho) as [Hr Hor]. destruct (Hadd s Ho) as [Ha Hoa].
  split_and!.
  - exact Hr.
  - intros now c e. rewrite submitData_run, Hr. reflexivity.
  - apply Hadd. congruence.
  - apply Hrem. congruence.
  - intros q Hq. unfold commit. split.
    + destruct (readFlag (isProvider s) p) eqn:Hp.
      * rewrite removeProvider_present by assumption. unfold readFlag. cbn.
        rewrite lookup_insert_ne by congruence. reflexivity.
      * rewrite removeProvider_absent by assumption. reflexivity.
    + destruct (readFlag (isProvider s) p) eqn:Hp.
      * rewrite addProvider_present by assumption. reflexivity.
      * rewrite addProvider_absent by assumption. unfold readFlag. cbn.
        rewrite lookup_insert_ne by congruence. reflexivity.
Qed.

(** ** The log and the ledger *)

Local Abbreviation log :=
  (logAll this keccak256 FHE_add FHE_isInitialized FHE_checkSignatures).

Lemma countOpened_app (l l' : list Effect) :
  countOpened (l ++ l') = (countOpened l + countOpened l')%nat.
Proof. unfold countOpened. rewrite List.filter_app, length_app. reflexivity. Qed.

Lemma countClosed_app (l l' : list Effect) :
  countClosed (l ++ l') = (countClosed l + countClosed l')%nat.
Proof. unfold countClosed. rewrite List.filter_app, length_app. reflexivity. Qed.

(** One transaction: the batch id grows by the number of [BatchOpened] it
    emits, and closings balance openings. *)
Lemma execute_log_accounts (tx : Tx) (s : Storage) :
  Batch.id (currentBatch (exec tx s))
  = Batch.id (currentBatch s) + Z.of_nat (countOpened (outputs (call tx) s)) /\
  (countClosed (outputs (call tx) s) + Nat.b2n (Batch.isOpen (currentBatch (exec tx s)))
   = countOpened (outputs (call tx) s) + Nat.b2n (Batch.isOpen (currentBatch s)))%nat.
Proof.
  unfold execute, commit, outputs.
  destruct (call tx s) as [[[[] s1] out]|e] eqn:Hcall; [|cbn; split; lia].
  apply dispatch_Ok_inv in Hcall.
  destruct (txCall tx) as [newOwner|p|p| | |n| | |c e|requestId|requestId cleartexts proof].
  - destruct Hcall as (_ & -> & ->). cbn. split; lia.
  - destruct Hcall as (_ & [(_ & -> & ->)|(_ & -> & ->)]); cbn; split; lia.
  - destruct Hcall as (_ & [(_ & -> & ->)|(_ & -> & ->)]); cbn; split; lia.
  - destruct Hcall as (_ & _ & -> & ->). cbn. split; lia.
  - destruct Hcall as (_ & -> & ->). cbn. split; lia.
  - destruct Hcall as (_ & _ & -> & ->). cbn. split; lia.
  - destruct Hcall as (_ & _ & _ & -> & ->).
    destruct (Batch.isOpen (currentBatch s)); cbn; split; lia.
  - destruct Hcall as (_ & _ & Hopen & -> & ->). cbn. rewrite Hopen. cbn. split; lia.
  - destruct Hcall as (_ & _ & _ & _ & Hopen & _ & _ & _ & -> & ->).
    cbn. rewrite Hopen. cbn. split; lia.
  - destruct Hcall as (_ & _ & _ & _ & _ & _ & -> & ->). cbn. split; lia.
  - destruct Hcall as (_ & _ & _ & _ & _ & -> & a & b & _ & ->). cbn. split; lia.
Qed.

(** X15. The log accounts for the ledger. Over every sequence of
    transactions, from every storage, the batch id grows by exactly the
    number of [BatchOpened] events in the log, and the [BatchClosed] events
    balance the [BatchOpened] ones: the closings, plus one if the batch is
    open at the end, equal the openings, plus one if it was open at the
    start. Every batch that was opened is thus closed exactly once, except
    the one that is still open. *)
Theorem log_accounts_for_batches (txs : list Tx) (s : Storage) :
  Batch.id (currentBatch (execAll txs s))
  = Batch.id (currentBatch s) + Z.of_nat (countOpened (log txs s)) /\
  (countClosed (log txs s) + Nat.b2n (Batch.isOpen (currentBatch (execAll txs s)))
   = countOpened (log txs s) + Nat.b2n (Batch.isOpen (currentBatch s)))%nat.
Proof.
  revert s. induction txs as [|tx rest IH]; intros s.
  - cbn. split; lia.
  - cbn [executeAll fold_left logAll].
    rewrite countOpened_app, countClosed_app.
    destruct (execute_log_accounts tx s) as [Hid Hbal].
    destruct (IH (exec tx s)) as [Hid' Hbal'].
    unfold executeAll in Hid', Hbal'. split; lia.
Qed.

(** ** What is sent out *)

(** X16. The contract asks the oracle only for the aggregates of a closed
    batch with submissions, on the owner's request: whenever a transaction
    sends a request to the oracle, it is a [requestBatchDecryption] of the
    owner, the batch is closed and its submission count is not 0, the
    handles sent are the two aggregates of the current batch, it is the only
    oracle request of the transaction, and the context stored under the
    returned request id carries their hash and is unprocessed. *)
Theorem oracle_request_only_for_closed_batch (tx : Tx) (s : Storage)
    (cts : list bytes32) :
  In (OracleRequest cts) (outputs (call tx) s) ->
  exists requestId : uint256,
    txCall tx = RequestBatchDecryption requestId /\
    txSender tx = owner s /\
    Batch.isOpen (currentBatch s) = false /\
    Batch.submissionCount (currentBatch s) <> 0 /\
    cts = [Batch.totalEncryptedCongestionScore (currentBatch s);
           Batch.totalEncryptedEcoScore (currentBatch s)] /\
    outputs (call tx) s
    = [OracleRequest cts;
       Emit (DecryptionRequested requestId (Batch.id (currentBatch s)))] /\
    readContext (decryptionContexts (exec tx s)) requestId
    = {| batchId := Batch.id (currentBatch s);
         stateHash := keccak256 cts this;
         processed := false |}.
Proof.
  unfold execute, commit, outputs.
  destruct (call tx s) as [[[[] s1] out]|e] eqn:Hcall; [|intros []].
  apply dispatch_Ok_inv in Hcall. intros Hin.
  destruct (txCall tx) as [newOwner|p|p| | |n| | |c e|requestId|requestId cleartexts proof].
  - destruct Hcall as (_ & _ & ->). cbn in Hin. intuition discriminate.
  - destruct Hcall as (_ & [(_ & _ & ->)|(_ & _ & ->)]); cbn in Hin; intuition discriminate.
  - destruct Hcall as (_ & [(_ & _ & ->)|(_ & _ & ->)]); cbn in Hin; intuition discriminate.
  - destruct Hcall as (_ & _ & _ & ->). cbn in Hin. intuition discriminate.
  - destruct Hcall as (_ & _ & ->). cbn in Hin. intuition discriminate.
  - destruct Hcall as (_ & _ & _ & ->). cbn in Hin. intuition discriminate.
  - destruct Hcall as (_ & _ & _ & _ & ->).
    destruct (Batch.isOpen (currentBatch s)); cbn in Hin; intuition discriminate.
  - destruct Hcall as (_ & _ & _ & _ & ->). cbn in Hin. intuition discriminate.
  - destruct Hcall as (_ & _ & _ & _ & _ & _ & _ & _ & _ & ->).
    cbn in Hin. intuition discriminate.
  - destruct Hcall as (Ho & _ & _ & _ & Hclosed & Hcount & -> & ->).
    cbn in Hin. destruct Hin as [[= <-]|[[=]|[]]].
    exists requestId. split_and!; try reflexivity; try assumption.
    apply readContext_requested.
  - destruct Hcall as (_ & _ & _ & _ & _ & _ & a & b & _ & ->).
    cbn in Hin. intuition discriminate.
Qed.

(** X17. A result is revealed only for the batch at hand and only on a
    verified proof. Whenever a transaction on a storage the contract can be
    in emits [DecryptionCompleted], it is a callback for that request id
    whose proof verified, the two totals are the decoded cleartexts, the
    batch id in the event is the id of the current batch, this batch is
    closed and has submissions, and the context of the request, unprocessed
    before, is processed after. *)
Theorem result_revealed_only_on_verified_proof (tx : Tx) (s : Storage)
    (requestId batch congestion eco : uint256) :
  reach s ->
  In (Emit (DecryptionCompleted requestId batch congestion eco)) (outputs (call tx) s) ->
  exists cleartexts proof : bytes,
    txCall tx = MyCallback requestId cleartexts proof /\
    FHE_checkSignatures requestId cleartexts proof = true /\
    abiDecodeUint32Pair cleartexts = Some (congestion, eco) /\
    batch = Batch.id (currentBatch s) /\
    Batch.isOpen (currentBatch s) = false /\
    Batch.submissionCount (currentBatch s) <> 0 /\
    processed (readContext (decryptionContexts s) requestId) = false /\
    processed (readContext (decryptionContexts (exec tx s)) requestId) = true.
Proof.
  intros Hreach. apply invariant_reachable in Hreach as (_ & Hid & _ & _ & Hctx).
  unfold execute, commit, outputs.
  destruct (call tx s) as [[[[] s1] out]|e] eqn:Hcall; [|intros []].
  apply dispatch_Ok_inv in Hcall. intros Hin.
  destruct (txCall tx) as [newOwner|p|p| | |n| | |c e|rid|rid cleartexts proof].
  - destruct Hcall as (_ & _ & ->). cbn in Hin. intuition discriminate.
  - destruct Hcall as (_ & [(_ & _ & ->)|(_ & _ & ->)]); cbn in Hin; intuition discriminate.
  - destruct Hcall as (_ & [(_ & _ & ->)|(_ & _ & ->)]); cbn in Hin; intuition discriminate.
  - destruct Hcall as (_ & _ & _ & ->). cbn in Hin. intuition discriminate.
  - destruct Hcall as (_ & _ & ->). cbn in Hin. intuition discriminate.
  - destruct Hcall as (_ & _ & _ & ->). cbn in Hin. intuition discriminate.
  - destruct Hcall as (_ & _ & _ & _ & ->).
    destruct (Batch.isOpen (currentBatch s)); cbn in Hin; intuition discriminate.
  - destruct Hcall as (_ & _ & _ & _ & ->). cbn in Hin. intuition discriminate.
  - destruct Hcall as (_ & _ & _ & _ & _ & _ & _ & _ & _ & ->).
    cbn in Hin. intuition discriminate.
  - destruct Hcall as (_ & _ & _ & _ & _ & _ & _ & ->).
    cbn in Hin. intuition discriminate.
  - destruct Hcall as (Hrid & Hp & Hbid & _ & Hsig & -> & a & b & Hdec & ->).
    cbn in Hin. destruct Hin as [[= <- <- <- <-]|[]].
    exists cleartexts, proof.
    assert (Hcur : Batch.isOpen (currentBatch s) = false /\
                   Batch.submissionCount (currentBatch s) <> 0).
    { unfold readContext in Hbid.
      destruct (decryptionContexts s !! rid) as [ctx|] eqn:Hl; cbn in Hbid.
      - destruct (Hctx rid ctx Hl) as (_ & _ & Hcur).
        destruct (Hcur (eq_sym Hbid)) as (? & ? & _). auto.
      - lia. }
    destruct Hcur as [Hclosed Hcount].
    split_and!; try reflexivity; try assumption.
    rewrite readContext_set_decryptionContext.
    destruct (decide (rid = rid)); [reflexivity | contradiction].
Qed.

End Ledger.

(** ** The further properties on the scenario *)

Lemma closeBatch_closes_once_witness :
  closeBatch Instance.admin
    (commit (closeBatch Instance.admin) Scenario.openedBatch)
  = Err BatchNotOpen.
Proof.
  destruct (closeBatch_closes_once Scenario.openedBatch Instance.admin)
    as [_ Hopen].
  - vm_compute. reflexivity.
  - vm_compute. reflexivity.
  - destruct Hopen as (_ & _ & Hsecond); [vm_compute; reflexivity | exact Hsecond].
Defined.

Lemma transferOwnership_hands_over_witness :
  owner (commit (transferOwnership Instance.admin Instance.alice)
           Instance.pendingRequest)
  = Instance.alice /\
  Instance.call (mkTx Instance.admin 500 OpenBatch)
    (commit (transferOwnership Instance.admin Instance.alice) Instance.pendingRequest)
  = Err NotOwner.
Proof.
  destruct (transferOwnership_hands_over Instance.this Instance.keccak256
              Instance.FHE_add Instance.FHE_isInitialized Instance.FHE_checkSignatures
              Instance.pendingRequest Instance.admin Instance.alice)
    as (_ & Hnew & Hold & _).
  - vm_compute. reflexivity.
  - split; [exact Hnew|].
    apply (Hold (mkTx Instance.admin 500 OpenBatch));
      [reflexivity | discriminate | reflexivity].
Defined.

Lemma non_owner_cannot_administer_witness :
  Instance.call (mkTx Instance.mallory 500 (SetCooldownSeconds 1))
    Instance.pendingRequest
  = Err NotOwner.
Proof.
  destruct (non_owner_cannot_administer Instance.this Instance.keccak256
              Instance.FHE_add Instance.FHE_isInitialized Instance.FHE_checkSignatures
              (mkTx Instance.mallory 500 (SetCooldownSeconds 1))
              Instance.pendingRequest)
    as [Hrevert _].
  - vm_compute. discriminate.
  - apply Hrevert. reflexivity.
Defined.


Lemma reachable_invariant_witness :
  invariant Instance.this Instance.keccak256 Instance.pendingRequest.
Proof.
  apply (reachable_invariant Instance.this Instance.keccak256 Instance.FHE_add
           Instance.FHE_isInitialized Instance.FHE_checkSignatures).
  unfold Instance.pendingRequest, Instance.run, Instance.closedBatch, executeAll.
  cbn [fold_left]. repeat apply reachable_execute. apply reachable_constructor.
Defined.

Lemma reachable_never_StateMismatch_witness :
  myCallback Instance.this Instance.keccak256 Instance.FHE_checkSignatures
    7 Instance.cleartexts_10_6 [Byte.x02] Instance.pendingRequest
  <> Err StateMismatch.
Proof.
  apply (reachable_never_StateMismatch Instance.this Instance.keccak256
           Instance.FHE_add Instance.FHE_isInitialized Instance.FHE_checkSignatures).
  unfold Instance.pendingRequest, Instance.run, Instance.closedBatch, executeAll.
  cbn [fold_left]. repeat apply reachable_execute. apply reachable_constructor.
Defined.

Lemma closed_batch_is_frozen_witness :
  currentBatch
    (Instance.run (mkTx Instance.alice 400 (SubmitData 5 3)) Instance.pendingRequest)
  = currentBatch Instance.pendingRequest.
Proof.
  destruct (closed_batch_is_frozen Instance.this Instance.keccak256
              Instance.FHE_add Instance.FHE_isInitialized Instance.FHE_checkSignatures
              (mkTx Instance.alice 400 (SubmitData 5 3)) Instance.pendingRequest)
    as [Hsame|(Hopen & _)].
  - vm_compute. reflexivity.
  - exact Hsame.
  - discriminate Hopen.
Defined.

Lemma stale_request_never_completes_witness :
  myCallback Instance.this Instance.keccak256 Instance.FHE_checkSignatures
    7 Instance.cleartexts_10_6 [Byte.x01]
    (executeAll Instance.this Instance.keccak256 Instance.FHE_add
       Instance.FHE_isInitialized Instance.FHE_checkSignatures
       [ mkTx Instance.alice 420 (SubmitData 5 3);
         mkTx Instance.admin 450 CloseBatch ]
       Scenario.reopened)
  = Err InvalidBatchId.
Proof.
  apply (stale_request_never_completes Instance.this Instance.keccak256
           Instance.FHE_add Instance.FHE_isInitialized Instance.FHE_checkSignatures
           Scenario.reopened 7).
  - vm_compute. reflexivity.
  - apply Z.ltb_lt. vm_compute. reflexivity.
  - repeat constructor; discriminate.
Defined.

Lemma request_then_callback_witness :
  myCallback Instance.this Instance.keccak256 Instance.FHE_checkSignatures
    7 Instance.cleartexts_10_6 [Byte.x02] Instance.pendingRequest
  = Err InvalidProof /\
  outputs
    (myCallback Instance.this Instance.keccak256 Instance.FHE_checkSignatures
       7 Instance.cleartexts_10_6 [Byte.x01]) Instance.pendingRequest
  = [Emit (DecryptionCompleted 7 2 10 6)].
Proof.
  split.
  - destruct (request_then_callback Instance.this Instance.keccak256
                Instance.FHE_checkSignatures Instance.closedBatch
                Instance.pendingRequest Instance.admin 300 7
                [OracleRequest [10; 6]; Emit (DecryptionRequested 7 2)]
                Instance.cleartexts_10_6 [Byte.x02])
      as (Hbad & _).
    + vm_compute. reflexivity.
    + discriminate.
    + apply Hbad. reflexivity.
  - destruct (request_then_callback Instance.this Instance.keccak256
                Instance.FHE_checkSignatures Instance.closedBatch
                Instance.pendingRequest Instance.admin 300 7
                [OracleRequest [10; 6]; Emit (DecryptionRequested 7 2)]
                Instance.cleartexts_10_6 [Byte.x01])
      as (_ & _ & Hgood).
    + vm_compute. reflexivity.
    + discriminate.
    + destruct (Hgood 10 6) as [Hrun _]; [reflexivity | vm_compute; reflexivity|].
      unfold outputs. rewrite Hrun. vm_compute. reflexivity.
Defined.

Lemma submitAll_folds_witness :
  Batch.totalEncryptedCongestionScore
    (currentBatch
       (commit (submitAll Instance.FHE_add Instance.FHE_isInitialized
                  Scenario.twoSubmissions) Scenario.openedBatch))
  = fold_left Instance.FHE_add [5; 7] 0.
Proof.
  destruct (submitAll_folds Instance.this Instance.keccak256 Instance.FHE_add
              Instance.FHE_isInitialized Instance.FHE_checkSignatures
              Scenario.twoSubmissions Scenario.openedBatch
              (commit (submitAll Instance.FHE_add Instance.FHE_isInitialized
                         Scenario.twoSubmissions) Scenario.openedBatch)
              [Emit (DataSubmitted 2 2); Emit (DataSubmitted 2 2)])
    as (Hcongestion & _).
  - vm_compute. reflexivity.
  - exact Hcongestion.
Defined.

Lemma aggregates_order_independent_witness :
  Batch.totalEncryptedCongestionScore
    (currentBatch
       (commit (submitAll Instance.FHE_add Instance.FHE_isInitialized
                  Scenario.twoSubmissions) Scenario.openedBatch))
  = Batch.totalEncryptedCongestionScore
      (currentBatch
         (commit (submitAll Instance.FHE_add Instance.FHE_isInitialized
                    Scenario.twoSubmissionsSwapped) Scenario.openedBatch)).
Proof.
  destruct (aggregates_order_independent Instance.FHE_add Instance.FHE_isInitialized
              Scenario.twoSubmissions Scenario.twoSubmissionsSwapped
              Scenario.openedBatch Scenario.openedBatch
              (commit (submitAll Instance.FHE_add Instance.FHE_isInitialized
                         Scenario.twoSubmissions) Scenario.openedBatch)
              (commit (submitAll Instance.FHE_add Instance.FHE_isInitialized
                         Scenario.twoSubmissionsSwapped) Scenario.openedBatch)
              [Emit (DataSubmitted 2 2); Emit (DataSubmitted 2 2)]
              [Emit (DataSubmitted 2 2); Emit (DataSubmitted 2 2)])
    as [Hcongestion _].
  - intros a b. unfold Instance.FHE_add. lia.
  - intros a b c. unfold Instance.FHE_add. lia.
  - vm_compute. reflexivity.
  - vm_compute. reflexivity.
  - reflexivity.
  - reflexivity.
  - apply perm_swap.
  - exact Hcongestion.
Defined.

Lemma cooldown_overflow_locks_out_witness :
  submitData Instance.FHE_add Instance.FHE_isInitialized Instance.alice
    1000000000 5 3 Scenario.longestCooldown
  = Err (Panic 17).
Proof.
  destruct (cooldown_overflow_locks_out Instance.this Instance.keccak256
              Instance.FHE_add Instance.FHE_isInitialized
              Scenario.longestCooldown Instance.alice 1000000000)
    as (Hsubmit & _).
  - vm_compute. reflexivity.
  - apply Hsubmit.
    + apply Z.ltb_lt. vm_compute. reflexivity.
    + vm_compute. reflexivity.
Defined.

Lemma removeProvider_revokes_witness :
  submitData Instance.FHE_add Instance.FHE_isInitialized Instance.alice 300 5 3
    (commit (removeProvider Instance.admin Instance.alice) Instance.firstSubmission)
  = Err NotProvider.
Proof.
  destruct (removeProvider_revokes Instance.FHE_add Instance.FHE_isInitialized
              Instance.firstSubmission Instance.admin Instance.alice)
    as (_ & Hrevoked & _).
  - vm_compute. reflexivity.
  - apply Hrevoked.
Defined.

Lemma oracle_request_only_for_closed_batch_witness :
  exists requestId : uint256,
    RequestBatchDecryption 7 = RequestBatchDecryption requestId /\
    Batch.isOpen (currentBatch Instance.closedBatch) = false /\
    Batch.submissionCount (currentBatch Instance.closedBatch) <> 0.
Proof.
  destruct (oracle_request_only_for_closed_batch Instance.this Instance.keccak256
              Instance.FHE_add Instance.FHE_isInitialized Instance.FHE_checkSignatures
              (mkTx Instance.admin 300 (RequestBatchDecryption 7))
              Instance.closedBatch [10; 6])
    as (requestId & Hcall & _ & Hclosed & Hcount & _).
  - vm_compute. left. reflexivity.
  - exists requestId. split_and!; assumption.
Defined.

Lemma result_revealed_only_on_verified_proof_witness :
  exists cleartexts proof : bytes,
    MyCallback 7 Instance.cleartexts_10_6 [Byte.x01] = MyCallback 7 cleartexts proof /\
    Instance.FHE_checkSignatures 7 cleartexts proof = true /\
    Batch.isOpen (currentBatch Instance.pendingRequest) = false.
Proof.
  destruct (result_revealed_only_on_verified_proof Instance.this Instance.keccak256
              Instance.FHE_add Instance.FHE_isInitialized Instance.FHE_checkSignatures
              (mkTx Instance.mallory 400
                 (MyCallback 7 Instance.cleartexts_10_6 [Byte.x01]))
              Instance.pendingRequest 7 2 10 6)
    as (cleartexts & proof & Hcall & Hsig & _ & _ & Hclosed & _).
  - unfold Instance.pendingRequest, Instance.run, Instance.closedBatch, executeAll.
    cbn [fold_left]. repeat apply reachable_execute. apply reachable_constructor.
  - vm_compute. left. reflexivity.
  - exists cleartexts, proof. split_and!; assumption.
Defined.

(** ** Requests and results in the log *)

Section Trace.

Variable this : address.
Variable keccak256 : list bytes32 -> address -> bytes32.
Variable FHE_add : uint256 -> uint256 -> uint256.
Variable FHE_isInitialized : uint256 -> bool.
Variable FHE_checkSignatures : uint256 -> bytes -> bytes -> bool.

Local Abbreviation exec :=
  (execute this keccak256 FHE_add FHE_isInitialized FHE_checkSignatures).
Local Abbreviation call :=
  (dispatch this keccak256 FHE_add FHE_isInitialized FHE_checkSignatures).
Local Abbreviation log :=
  (logAll this keccak256 FHE_add FHE_isInitialized FHE_checkSignatures).

(** Every stored context was announced in the log [past]. *)
Local Abbreviation announced := (fun (s : Storage) (past : list Effect) =>
  forall (requestId : uint256) (ctx : DecryptionContext),
    decryptionContexts s !! requestId = Some ctx ->
    In (Emit (DecryptionRequested requestId (batchId ctx))) past).

Lemma execute_announced (tx : Tx) (s : Storage) (past : list Effect) :
  1 <= Batch.id (currentBatch s) -> announced s past ->
  1 <= Batch.id (currentBatch (exec tx s)) /\
  announced (exec tx s) (past ++ outputs (call tx) s).
Proof.
  intros Hid Hann. unfold execute, commit, outputs.
  destruct (call tx s) as [[[[] s1] out]|e] eqn:Hcall.
  2: { split; [exact Hid|]. intros rid ctx Hl. rewrite app_nil_r. eauto. }
  pose proof (dispatch_batch_id _ _ _ _ _ _ _ _ _ Hcall) as Hmono.
  split; [lia|].
  pose proof (dispatch_decryptionContexts _ _ _ _ _ _ _ _ _ Hcall) as Hctxs.
  apply dispatch_Ok_inv in Hcall.
  destruct (txCall tx) as [ | | | | | | | | |requestId|requestId cleartexts proof];
    try solve [intros rid ctx Hl; rewrite Hctxs in Hl; apply in_or_app; left; eauto].
  - destruct Hcall as (_ & _ & _ & _ & _ & _ & _ & ->). subst s1.
    intros rid ctx Hl. cbn in Hl. rewrite lookup_insert in Hl.
    apply in_or_app.
    destruct (decide (requestId = rid)) as [->|]; [|left; eauto].
    injection Hl as <-. right. cbn. auto.
  - destruct Hcall as (_ & _ & Hbid & _). subst s1.
    intros rid ctx Hl. cbn in Hl. rewrite lookup_insert in Hl.
    apply in_or_app. left.
    destruct (decide (requestId = rid)) as [->|]; [|eauto].
    injection Hl as <-. cbn. unfold readContext in *.
    destruct (decryptionContexts s !! rid) as [ctx0|] eqn:Hl0; [eauto|].
    cbn in Hbid. lia.
Qed.

(** A transaction that emits [DecryptionCompleted] emits nothing else, and
    the request was announced before. *)
Lemma completed_in_outputs (tx : Tx) (s : Storage) (past : list Effect)
    (requestId batch congestion eco : uint256) :
  1 <= Batch.id (currentBatch s) -> announced s past ->
  In (Emit (DecryptionCompleted requestId batch congestion eco)) (outputs (call tx) s) ->
  outputs (call tx) s = [Emit (DecryptionCompleted requestId batch congestion eco)] /\
  In (Emit (DecryptionRequested requestId batch)) past.
Proof.
  intros Hid Hann. unfold outputs.
  destruct (call tx s) as [[[[] s1] out]|e] eqn:Hcall; [|intros []].
  apply dispatch_Ok_inv in Hcall. intros Hin.
  destruct (txCall tx) as [newOwner|p|p| | |n| | |c e|rid|rid cleartexts proof].
  - destruct Hcall as (_ & _ & ->). cbn in Hin. intuition discriminate.
  - destruct Hcall as (_ & [(_ & _ & ->)|(_ & _ & ->)]); cbn in Hin; intuition discriminate.
  - destruct Hcall as (_ & [(_ & _ & ->)|(_ & _ & ->)]); cbn in Hin; intuition discriminate.
  - destruct Hcall as (_ & _ & _ & ->). cbn in Hin. intuition discriminate.
  - destruct Hcall as (_ & _ & ->). cbn in Hin. intuition discriminate.
  - destruct Hcall as (_ & _ & _ & ->). cbn in Hin. intuition discriminate.
  - destruct Hcall as (_ & _ & _ & _ & ->).
    destruct (Batch.isOpen (currentBatch s)); cbn in Hin; intuition discriminate.
  - destruct Hcall as (_ & _ & _ & _ & ->). cbn in Hin. intuition discriminate.
  - destruct Hcall as (_ & _ & _ & _ & _ & _ & _ & _ & _ & ->).
    cbn in Hin. intuition discriminate.
  - destruct Hcall as (_ & _ & _ & _ & _ & _ & _ & ->).
    cbn in Hin. intuition discriminate.
  - destruct Hcall as (_ & _ & Hbid & _ & _ & _ & a & b & _ & ->).
    cbn in Hin. destruct Hin as [[= <- <- <- <-]|[]].
    split; [reflexivity|]. unfold readContext in Hbid.
    destruct (decryptionContexts s !! rid) as [ctx|] eqn:Hl; cbn in Hbid.
    + rewrite Hbid. eauto.
    + lia.
Qed.

Lemma log_completed_was_requested (txs : list Tx) (s : Storage)
    (past before after : list Effect) (requestId batch congestion eco : uint256) :
  1 <= Batch.id (currentBatch s) -> announced s past ->
  log txs s
  = before ++ Emit (DecryptionCompleted requestId batch congestion eco) :: after ->
  In (Emit (DecryptionRequested requestId batch)) (past ++ before).
Proof.
  revert s past before.
  induction txs as [|tx rest IH]; intros s past before Hid Hann Hlog.
  - cbn in Hlog. destruct before; discriminate.
  - cbn [logAll] in Hlog.
    destruct (execute_announced tx s past Hid Hann) as [Hid' Hann'].
    apply app_eq_app in Hlog as [l [[Hout Hrest]|[Hbefore Hrest]]].
    + destruct l as [|x l].
      * cbn in Hrest. rewrite app_nil_r in Hout.
        pose proof (IH (exec tx s) _ [] Hid' Hann' (eq_sym Hrest)) as Hin.
        rewrite app_nil_r, Hout in Hin. exact Hin.
      * cbn in Hrest. injection Hrest as <- _.
        destruct (completed_in_outputs tx s past requestId batch congestion eco
                    Hid Hann) as [Honly Hin].
        { rewrite Hout. apply in_or_app. right. left. reflexivity. }
        rewrite Hout in Honly. destruct before as [|y before].
        -- rewrite app_nil_r. exact Hin.
        -- cbn in Honly. injection Honly as _ Hnil.
           destruct before; discriminate Hnil.
    + pose proof (IH (exec tx s) _ l Hid' Hann' Hrest) as Hin.
      rewrite Hbefore, app_assoc. exact Hin.
Qed.

(** X18. Every result was asked for. In the log of every sequence of
    transactions since the constructor, each [DecryptionCompleted] for a
    request id and a batch id comes after a [DecryptionRequested] with the
    same request id and the same batch id. *)
Theorem completed_was_requested (deployer : address) (txs : list Tx)
    (before after : list Effect) (requestId batch congestion eco : uint256) :
  log txs (constructor deployer)
  = before ++ Emit (DecryptionCompleted requestId batch congestion eco) :: after ->
  In (Emit (DecryptionRequested requestId batch)) before.
Proof.
  intros Hlog.
  apply (log_completed_was_requested txs (constructor deployer) [] before after
           requestId batch congestion eco); [cbn; lia | | exact Hlog].
  intros rid ctx Hl. cbn in Hl. rewrite lookup_empty in Hl. discriminate.
Qed.

End Trace.

Lemma completed_was_requested_witness :
  In (Emit (DecryptionRequested 7 2))
    [ Emit (ProviderAdded 2); Emit (BatchOpened 2); Emit (DataSubmitted 2 2);
      Emit (DataSubmitted 2 2); Emit (BatchClosed 2); OracleRequest [10; 6];
      Emit (DecryptionRequested 7 2) ].
Proof.
  apply (completed_was_requested Instance.this Instance.keccak256 Instance.FHE_add
           Instance.FHE_isInitialized Instance.FHE_checkSignatures
           Instance.admin Scenario.wholeScenario _ [] 7 2 10 6).
  vm_compute. reflexivity.
Defined.
